(** * A shallow embedding of scepter/tleforger.py

    The Python module forges synthetic Two-Line Element sets.  This file
    models it as follows.
    - A Python [float] is modelled by the exact rational value it denotes
      ([Q]); Python's fixed-point formatting ([f"{x:.4f}"]) rounds that
      exact value half-to-even, which [round_half_even] reproduces.  The
      arithmetic of [format_leading_zero] (divisions and multiplications
      by 10) is computed exactly.
    - A Python [int] is a [Z].
    - A Python [str] is a list of Unicode code points ([pystr]); the ASCII
      text produced by the formatters is built as a Rocq [string] and
      converted with [lit].
    - Raised exceptions are the [Raise] branch of the result type [Res]. *)

From Stdlib Require Import ZArith NArith QArith Qround Qabs Qpower Lia Lqa String Ascii List Bool.
Import ListNotations.

Open Scope string_scope.
Open Scope Z_scope.

(** ** Python results: a value or a raised exception *)

Inductive PyExc : Type :=
| ValueError (msg : string)
| ZeroDivisionError.

Inductive Res (A : Type) : Type :=
| Ok (a : A)
| Raise (e : PyExc).
Arguments Ok {A} a.
Arguments Raise {A} e.

Definition bind {A B : Type} (r : Res A) (k : A -> Res B) : Res B :=
  match r with
  | Ok a => k a
  | Raise e => Raise e
  end.

Notation "x <- r ; k" := (bind r (fun x => k))
  (at level 61, r at next level, right associativity).

(** [for x in xs: acc = body(acc, x)], stopping at the first exception. *)
Fixpoint fold_left_res {A B : Type} (body : B -> A -> Res B) (xs : list A) (acc : B)
  : Res B :=
  match xs with
  | [] => Ok acc
  | x :: xs' => acc' <- body acc x ; fold_left_res body xs' acc'
  end.

(** [range(n)] *)
Definition range (n : Z) : list Z := map Z.of_nat (seq 0 (Z.to_nat n)).

(** ** Python strings *)

Definition pystr := list N.

Definition lit (s : string) : pystr :=
  map (fun a => N_of_ascii a) (list_ascii_of_string s).

(** ** Decimal rendering of integers *)

Definition digit_char (d : N) : ascii := ascii_of_N (48 + d).

Fixpoint str_of_N_fuel (fuel : nat) (n : N) : string :=
  match fuel with
  | O => EmptyString
  | S f =>
      if (n <? 10)%N then String (digit_char n) EmptyString
      else str_of_N_fuel f (n / 10) ++ String (digit_char (n mod 10)) EmptyString
  end.

(** [str(n)] for a non-negative integer. *)
Definition str_of_N (n : N) : string := str_of_N_fuel (S (N.size_nat n)) n.

Fixpoint repeat_char (c : ascii) (k : nat) : string :=
  match k with
  | O => EmptyString
  | S k' => String c (repeat_char c k')
  end.

(** Right alignment, padding with [c] on the left up to width [w]. *)
Definition rjust (c : ascii) (w : nat) (s : string) : string :=
  repeat_char c (w - String.length s) ++ s.

(** Left alignment ([f"{s:8}"] on a [str]), padding with spaces. *)
Definition ljust (w : nat) (s : string) : string :=
  s ++ repeat_char " "%char (w - String.length s).

(** [f"{n:0wd}"] when [zero] is true, [f"{n:wd}"] otherwise. *)
Definition format_int (zero : bool) (w : nat) (n : Z) : string :=
  let sign := if n <? 0 then "-" else EmptyString in
  let body := str_of_N (Z.to_N (Z.abs n)) in
  if zero then sign ++ rjust "0"%char (w - String.length sign) body
  else rjust " "%char w (sign ++ body).

(** ** Fixed-point rendering of floats *)

(** The float comparison [a < b]. *)
Definition Qlt_bool (a b : Q) : bool := negb (Qle_bool b a).

(** Python's [round(x)] and the rounding of the float formatters:
    to the nearest integer, ties to even. *)
Definition round_half_even (q : Q) : Z :=
  let f := Qfloor q in
  let d := (q - inject_Z f)%Q in
  if Qlt_bool d (1 # 2) then f
  else if Qlt_bool (1 # 2) d then f + 1
  else if Z.even f then f else f + 1.

Inductive SignFlag := SignMinus | SignPlus.

(** [f"{x:{sign}{0 if zero}{w}.{prec}f}"]: the sign is shown for every
    negative value (also one that rounds to zero); [SignPlus] shows [+]
    for the others.  Zero padding goes between the sign and the digits. *)
Definition format_fixed (sflag : SignFlag) (zero : bool) (w prec : nat) (x : Q) : string :=
  let neg := Qlt_bool x 0%Q in
  let sign := if neg then "-" else match sflag with SignPlus => "+" | SignMinus => "" end in
  let m := round_half_even (Qabs x * inject_Z (10 ^ Z.of_nat prec))%Q in
  let ip := m / 10 ^ Z.of_nat prec in
  let fp := m mod 10 ^ Z.of_nat prec in
  let body := str_of_N (Z.to_N ip) ++
              (match prec with
               | O => EmptyString
               | _ => "." ++ rjust "0"%char prec (str_of_N (Z.to_N fp))
               end) in
  if zero then sign ++ rjust "0"%char (w - String.length sign) body
  else rjust " "%char w (sign ++ body).

(** [f"{x:w.precf}"] *)
Definition format_float (w prec : nat) (x : Q) : string :=
  format_fixed SignMinus false w prec x.

(** [s[k:]] and [s[:k]] *)
Definition str_drop (k : nat) (s : string) : string := substring k (String.length s - k) s.
Definition str_take (k : nat) (s : string) : string := substring 0 k s.

(** ** The Unicode digit classification behind [str.isdigit] and [int]

    [ch.isdigit()] holds for the characters whose Unicode numeric type is
    Decimal or Digit; [int(ch)] accepts only the Decimal ones (general
    category Nd) and raises [ValueError] on the others (such as the
    superscripts U+00B2, U+00B3, U+00B9). *)
Inductive DigitClass :=
| Decimal (v : nat)
| DigitOnly
| NotDigit.

(** The classification restricted to Latin-1 (U+0000..U+00FF). *)
Definition latin1_digit_class (c : N) : DigitClass :=
  if ((48 <=? c) && (c <=? 57))%N then Decimal (N.to_nat (c - 48))
  else if ((c =? 178) || (c =? 179) || (c =? 185))%N then DigitOnly
  else NotDigit.

Section Forger.

(** The rest of the Unicode Character Database (code points above U+00FF). *)
Variable ucd_rest : N -> DigitClass.

(** The double-precision value of
    [np.sqrt(GM_earth.value / a_m**3) * (86400.0 / (2.0 * np.pi))] with
    [a_m = R_earth.value + altitude_m]; floating point, left abstract. *)
Variable mean_motion_rev_day_of : Q -> Q.

Definition digit_class (c : N) : DigitClass :=
  if (c <? 256)%N then latin1_digit_class c else ucd_rest c.

Definition isdigit (c : N) : bool :=
  match digit_class c with Decimal _ | DigitOnly => true | NotDigit => false end.

(** [int(ch)] for a one-character string on which [ch.isdigit()] holds. *)
Definition int_of_char (c : N) : Res nat :=
  match digit_class c with
  | Decimal v => Ok v
  | _ => Raise (ValueError "invalid literal for int() with base 10")
  end.

(** [sum(int(ch) if ch.isdigit() else 1 if ch == '-' else 0 for ch in tle_line)],
    the generator being consumed left to right. *)
Fixpoint checksum_sum (tle_line : pystr) (acc : nat) : Res nat :=
  match tle_line with
  | [] => Ok acc
  | ch :: rest =>
      term <- (if isdigit ch then int_of_char ch
               else if (ch =? 45)%N then Ok 1%nat else Ok 0%nat) ;
      checksum_sum rest (acc + term)%nat
  end.

(** Python: [_compute_tle_checksum] *)
Definition _compute_tle_checksum (tle_line : pystr) : Res nat :=
  total <- checksum_sum tle_line 0%nat ; Ok (total mod 10)%nat.

(** ** [format_leading_zero], the helper nested in [forge_tle_single] *)

(** [while vabs >= 10.0 and exponent < 9: vabs /= 10.0; exponent += 1] *)
Fixpoint scale_down (fuel : nat) (vabs : Q) (exponent : Z) : Q * Z :=
  match fuel with
  | O => (vabs, exponent)
  | S f =>
      if Qle_bool 10 vabs && (exponent <? 9)
      then scale_down f (vabs / 10)%Q (exponent + 1)
      else (vabs, exponent)
  end.

(** [while vabs < 1.0 and exponent > -9: vabs *= 10.0; exponent -= 1] *)
Fixpoint scale_up (fuel : nat) (vabs : Q) (exponent : Z) : Q * Z :=
  match fuel with
  | O => (vabs, exponent)
  | S f =>
      if Qlt_bool vabs 1 && (-9 <? exponent)
      then scale_up f (vabs * 10)%Q (exponent - 1)
      else (vabs, exponent)
  end.

(** Step 1: "Convert to scientific notation"; both loops stop after at most
    nine rounds, by the bound on [exponent]. *)
Definition lz_scientific (vabs : Q) : Q * Z :=
  if Qle_bool 1 vabs then scale_down 9 vabs 0 else scale_up 9 vabs 0.

(** Step 2: "We only keep 5 digits in the mantissa". *)
Definition lz_round (vabs : Q) (exponent : Z) : Z * Z :=
  let mantissa_int := round_half_even (vabs * 10000)%Q in
  if 100000 <=? mantissa_int
  then (mantissa_int / 10, if 9 <? exponent + 1 then 9 else exponent + 1)
  else (mantissa_int, exponent).

Definition format_leading_zero (value : Q) : string :=
  if Qlt_bool (Qabs value) (1 # Pos.pow 10 99) then " 00000-0"
  else
    let sign_mantissa := if Qlt_bool value 0%Q then "-" else " " in
    let '(vabs, exponent) := lz_scientific (Qabs value) in
    let '(mantissa_int, exponent) := lz_round vabs exponent in
    let mantissa_str := format_int true 5 mantissa_int in
    let sign_exp := if exponent <? 0 then "-" else "+" in
    let exponent_str := str_of_N (Z.to_N (Z.abs exponent)) in
    sign_mantissa ++ mantissa_str ++ sign_exp ++ exponent_str.

(** ** [forge_tle_single] *)

(** The [astropy.time.Time] argument, through the two values the forger
    reads from it: [start_time.datetime.year] and the day count
    [(start_time - start_of_year).to_value('day')] computed by astropy. *)
Record Time := mkTime {
  datetime_year : Z;
  days_since_start_of_year : Q
}.

Definition sat_number : Z := 0.
Definition classification : string := "U".
Definition int_desg : string := "25001A".
Definition mm_dot : Q := 0.
Definition mm_ddot : Q := 0.
Definition bstar : Q := 0.
Definition ephemeris_type : Z := 0.
Definition element_set_number : Z := 1.
Definition rev_number : Z := 1.

Definition epoch_str (start_time : Time) : string :=
  let year_short := datetime_year start_time mod 100 in
  let day_of_year := (days_since_start_of_year start_time + 1)%Q in
  format_int true 2 year_short ++ format_fixed SignMinus true 12 8 day_of_year.

(** [f"{mm_dot:+.8f}"[:1]+f"{mm_dot:+.8f}"[2:]] *)
Definition mm_dot_string : string :=
  str_take 1 (format_fixed SignPlus false 0 8 mm_dot)
  ++ str_drop 2 (format_fixed SignPlus false 0 8 mm_dot).

Definition tle_line1 (start_time : Time) : string :=
  "1 " ++ format_int true 5 sat_number ++ classification ++ " "
  ++ ljust 8 int_desg ++ " " ++ ljust 14 (epoch_str start_time) ++ " "
  ++ mm_dot_string ++ " " ++ format_leading_zero mm_ddot ++ " "
  ++ format_leading_zero bstar ++ " " ++ format_int false 0 ephemeris_type ++ " "
  ++ format_int false 4 element_set_number.

(** [f"{eccentricity:.7f}"[2:]] *)
Definition ecc_str (eccentricity : Q) : string :=
  str_drop 2 (format_fixed SignMinus false 0 7 eccentricity).

Definition tle_line2 (inclination_deg raan_deg : Q) (eccentricity : Q)
    (argp_deg anomaly_deg mean_motion_rev_day : Q) : string :=
  "2 " ++ format_int true 5 sat_number ++ " " ++ format_float 8 4 inclination_deg
  ++ " " ++ format_float 8 4 raan_deg ++ " " ++ ljust 7 (ecc_str eccentricity)
  ++ " " ++ format_float 8 4 argp_deg ++ " " ++ format_float 8 4 anomaly_deg
  ++ " " ++ format_float 11 8 mean_motion_rev_day ++ format_int true 5 rev_number.

Definition line1_error : PyExc :=
  ValueError "Line 1 is not 68 characters long before adding checksum.".
Definition line2_error : PyExc :=
  ValueError "Line 2 is not 68 characters long before adding checksum.".

(** The diagnostic [print]s before the line-2 [raise] are not modelled. *)
Definition forge_tle_single (sat_name : pystr) (altitude_m eccentricity inclination_deg
    raan_deg argp_deg anomaly_deg : Q) (start_time : Time) : Res pystr :=
  let mean_motion_rev_day := mean_motion_rev_day_of altitude_m in
  let line1 := tle_line1 start_time in
  if negb (String.length line1 =? 68)%nat then Raise line1_error
  else
    let line2 := tle_line2 inclination_deg raan_deg eccentricity argp_deg anomaly_deg
                   mean_motion_rev_day in
    if negb (String.length line2 =? 68)%nat then Raise line2_error
    else
      c1 <- _compute_tle_checksum (lit line1) ;
      let line1 := line1 ++ str_of_N (N.of_nat c1) in
      c2 <- _compute_tle_checksum (lit line2) ;
      let line2 := line2 ++ str_of_N (N.of_nat c2) in
      Ok (sat_name ++ [10%N] ++ lit line1 ++ [10%N] ++ lit line2)%list.

(** ** [forge_tle_belt] *)

(** [360.0 / num_sats_per_plane] *)
Definition float_div_int (a : Q) (b : Z) : Res Q :=
  if b =? 0 then Raise ZeroDivisionError else Ok (a / inject_Z b)%Q.

Definition belt_sat_name (plane_idx satellite_idx : Z) : pystr :=
  lit ("SystemC_Belt_1_Plane_" ++ format_int false 0 (plane_idx + 1)
       ++ "_Satellite_" ++ format_int false 0 (satellite_idx + 1)).

Definition forge_tle_belt (num_sats_per_plane plane_count : Z)
    (altitude_km eccentricity inclination_deg argp_deg : Q) (start_time : Time)
    : Res (list pystr) :=
  let tle_list := @nil pystr in
  let altitude_m := (altitude_km * 1000)%Q in
  step <- float_div_int 360 num_sats_per_plane ;
  fold_left_res (fun tle_list plane_idx =>
      let raan_deg_plane := (inject_Z plane_idx * 10)%Q in
      fold_left_res (fun tle_list satellite_idx =>
          let anomaly_deg_sat := (inject_Z satellite_idx * step)%Q in
          let sat_name := belt_sat_name plane_idx satellite_idx in
          tle_str <- forge_tle_single sat_name altitude_m eccentricity
                       inclination_deg raan_deg_plane argp_deg anomaly_deg_sat start_time ;
          Ok (tle_list ++ [tle_str])%list)
        (range num_sats_per_plane) tle_list)
    (range plane_count) tle_list.

End Forger.

(** ** Concrete instances used to evaluate the model *)

(** Code points above U+00FF taken as non-digits; the forged lines are ASCII. *)
Definition ucd_rest_none : N -> DigitClass := fun _ => NotDigit.

Definition GM_earth_value : Q := 398600441800000.
Definition R_earth_value : Q := 6378100.

(** A rational approximation (20 decimal places for the square root and for
    pi) of the mean-motion computation. *)
Definition mean_motion_rev_day_ref (altitude_m : Q) : Q :=
  let a_m := (R_earth_value + altitude_m)%Q in
  let x := (GM_earth_value / (a_m * a_m * a_m))%Q in
  let sqrt_x := Z.sqrt (Qfloor (x * inject_Z (10 ^ 40))) # Pos.pow 10 20 in
  let pi := 314159265358979323846 # Pos.pow 10 20 in
  (sqrt_x * (86400 / (2 * pi)))%Q.

Definition epoch_2025 : Time := mkTime 2025 0.

(** The start times the forger receives: the day count of an instant of its
    calendar year is below 367 (366 days of a leap year, plus at most a few
    leap seconds). *)
Definition valid_start_time (t : Time) : Prop :=
  (0 <= days_since_start_of_year t < 367)%Q.

(** The records of a loop that stops at the first exception. *)
Fixpoint mapM {A B : Type} (g : A -> Res B) (xs : list A) : Res (list B) :=
  match xs with
  | [] => Ok []
  | x :: xs' => y <- g x ; ys <- mapM g xs' ; Ok (y :: ys)
  end.

(** The checksum as the specification describes it: each decimal digit
    ['0'..'9'] adds its value, each ['-'] adds 1, every other character adds
    0, and the total is taken modulo 10. *)
Definition checksum_term_spec (ch : N) : nat :=
  if ((48 <=? ch) && (ch <=? 57))%N then N.to_nat (ch - 48)
  else if (ch =? 45)%N then 1%nat else 0%nat.

Definition checksum_spec (line : pystr) : nat :=
  (fold_left (fun acc ch => acc + checksum_term_spec ch) line 0 mod 10)%nat.

(** Text whose characters all lie in US-ASCII (code points below 128). *)
Definition ascii_text (s : string) : Prop :=
  Forall (fun a => (N_of_ascii a < 128)%N) (list_ascii_of_string s).

(** * Lemmas *)

(** ** Strings and their lengths *)

Lemma slen_app (s1 s2 : string) :
  String.length (s1 ++ s2) = (String.length s1 + String.length s2)%nat.
Proof. induction s1 as [|a s1 IH]; simpl; [reflexivity | now rewrite IH]. Qed.


Lemma slen_repeat (c : ascii) (k : nat) : String.length (repeat_char c k) = k.
Proof. induction k as [|k IH]; simpl; [reflexivity | now rewrite IH]. Qed.

Lemma slen_rjust (c : ascii) (w : nat) (s : string) :
  String.length (rjust c w s) = Nat.max w (String.length s).
Proof. unfold rjust; rewrite slen_app, slen_repeat; lia. Qed.

Lemma slen_ljust (w : nat) (s : string) :
  String.length (ljust w s) = Nat.max w (String.length s).
Proof. unfold ljust; rewrite slen_app, slen_repeat; lia. Qed.

Lemma lit_app (s1 s2 : string) : lit (s1 ++ s2) = (lit s1 ++ lit s2)%list.
Proof. unfold lit. induction s1 as [|a s1 IH]; simpl; [reflexivity | now rewrite IH]. Qed.

Lemma lit_length (s : string) : length (lit s) = String.length s.
Proof. unfold lit. induction s as [|a s IH]; simpl; [reflexivity | now rewrite IH]. Qed.

Lemma firstn_skipn_prefix {A : Type} (l1 l2 : list A) (k : nat) :
  length l1 = k -> firstn k (l1 ++ l2)%list = l1 /\ skipn k (l1 ++ l2)%list = l2.
Proof.
  intros <-. induction l1 as [|a l1 IH]; simpl; [auto |].
  destruct IH as [-> ->]; auto.
Qed.

(** ** Digits *)

Lemma str_of_N_digit (n : N) : (n < 10)%N -> str_of_N n = String (digit_char n) EmptyString.
Proof.
  intros H. unfold str_of_N; simpl.
  destruct (N.ltb_spec n 10); [reflexivity | lia].
Qed.

Lemma lit_digit (n : N) : (n < 10)%N -> lit (String (digit_char n) EmptyString) = [(48 + n)%N].
Proof.
  intros H. unfold lit, digit_char; cbn [map list_ascii_of_string].
  rewrite N_ascii_embedding by lia. reflexivity.
Qed.

Lemma checksum_lt (ucd : N -> DigitClass) (l : pystr) (c : nat) :
  _compute_tle_checksum ucd l = Ok c -> (c < 10)%nat.
Proof.
  unfold _compute_tle_checksum.
  destruct (checksum_sum ucd l 0) as [total|e]; cbn [bind]; intros H; [|discriminate].
  assert (Hc : c = (total mod 10)%nat) by congruence.
  rewrite Hc. apply Nat.mod_upper_bound; lia.
Qed.

(** The line, checksum digit appended, as the forger emits it. *)
Lemma lit_line_with_checksum (ucd : N -> DigitClass) (line : string) (c : nat) :
  String.length line = 68%nat -> _compute_tle_checksum ucd (lit line) = Ok c ->
  length (lit (line ++ str_of_N (N.of_nat c))) = 69%nat /\
  firstn 68 (lit (line ++ str_of_N (N.of_nat c))) = lit line /\
  skipn 68 (lit (line ++ str_of_N (N.of_nat c))) = [(48 + N.of_nat c)%N].
Proof.
  intros Hlen Hc.
  pose proof (checksum_lt _ _ _ Hc) as Hlt.
  rewrite str_of_N_digit by lia. rewrite lit_app, lit_digit by lia.
  rewrite <- lit_length in Hlen.
  destruct (firstn_skipn_prefix (lit line) [(48 + N.of_nat c)%N] 68 Hlen) as [H1 H2].
  rewrite length_app, Hlen; simpl. auto.
Qed.

(** ** Number of decimal digits *)

Lemma pow10_succ (k : nat) : (10 ^ N.of_nat (S k) = 10 * 10 ^ N.of_nat k)%N.
Proof. rewrite Nnat.Nat2N.inj_succ, N.pow_succ_r'. reflexivity. Qed.

Lemma pow10_pos (k : nat) : (1 <= 10 ^ N.of_nat k)%N.
Proof.
  induction k as [|k IH]; [reflexivity|]. rewrite pow10_succ. lia.
Qed.

Lemma str_fuel_nonempty (f : nat) (n : N) :
  (1 <= f)%nat -> (1 <= String.length (str_of_N_fuel f n))%nat.
Proof.
  revert n. induction f as [|f IH]; intros n Hf; [lia|].
  cbn [str_of_N_fuel]. destruct (n <? 10)%N; [cbn; lia|].
  rewrite slen_app. cbn [String.length]. lia.
Qed.

Lemma div10_facts (n : N) : n = (10 * (n / 10) + n mod 10)%N /\ (n mod 10 < 10)%N.
Proof. split; [apply N.div_mod; lia | apply N.mod_lt; lia]. Qed.

(** With enough fuel, [str_of_N_fuel f n] has at most [k] characters
    exactly when [n < 10 ^ k]. *)
Lemma str_fuel_length (f : nat) (n : N) (k : nat) :
  (n < 10 ^ N.of_nat f)%N -> (1 <= k)%nat ->
  ((String.length (str_of_N_fuel f n) <= k)%nat <-> (n < 10 ^ N.of_nat k)%N).
Proof.
  revert n k. induction f as [|f IH]; intros n k Hn Hk.
  - cbn in Hn. assert (n = 0%N) by lia. subst. cbn.
    pose proof (pow10_pos k). split; intros; lia.
  - cbn [str_of_N_fuel]. destruct (N.ltb_spec n 10) as [Hlt|Hge].
    + cbn [String.length]. split; intros; [|lia].
      destruct k as [|k]; [lia|]. rewrite pow10_succ. pose proof (pow10_pos k). lia.
    + rewrite slen_app. cbn [String.length].
      destruct (div10_facts n) as [Hd Hm].
      rewrite pow10_succ in Hn.
      remember (n / 10)%N as q eqn:Eq. remember (n mod 10)%N as r eqn:Er.
      clear Eq Er.
      assert (Hq : (q < 10 ^ N.of_nat f)%N) by lia.
      destruct f as [|f]; [cbn in Hq; lia|].
      destruct k as [|[|k]]; [lia| |].
      * pose proof (str_fuel_nonempty (S f) q).
        change (10 ^ N.of_nat 1)%N with 10%N. split; intros; lia.
      * rewrite pow10_succ.
        specialize (IH q (S k) Hq ltac:(lia)).
        rewrite pow10_succ in IH |- *. split; intros H.
        -- assert (q < 10 * 10 ^ N.of_nat k)%N by (apply IH; lia). lia.
        -- assert (String.length (str_of_N_fuel (S f) q) <= S k)%nat
             by (apply IH; lia). lia.
Qed.

Lemma size_nat_bound (n : N) : (n < 10 ^ N.of_nat (N.size_nat n))%N.
Proof.
  destruct n as [|p]; [cbn; lia|]. cbn [N.size_nat].
  induction p as [p IH|p IH|]; cbn [Pos.size_nat]; rewrite ?pow10_succ.
  - change (N.pos p~1) with (2 * N.pos p + 1)%N. lia.
  - change (N.pos p~0) with (2 * N.pos p)%N. lia.
  - cbn. lia.
Qed.

Lemma str_of_N_length (n : N) (k : nat) :
  (1 <= k)%nat -> ((String.length (str_of_N n) <= k)%nat <-> (n < 10 ^ N.of_nat k)%N).
Proof.
  intros Hk. unfold str_of_N. apply str_fuel_length; [|exact Hk].
  rewrite pow10_succ. pose proof (size_nat_bound n). lia.
Qed.

Lemma str_of_N_nonempty (n : N) : (1 <= String.length (str_of_N n))%nat.
Proof. apply str_fuel_nonempty. lia. Qed.

(** ** Rounding *)

Lemma Qlt_bool_iff (a b : Q) : Qlt_bool a b = true <-> (a < b)%Q.
Proof.
  unfold Qlt_bool. rewrite negb_true_iff.
  split; intros H.
  - apply Qnot_le_lt. intros H'. apply Qle_bool_iff in H'. congruence.
  - destruct (Qle_bool b a) eqn:E; [|reflexivity].
    apply Qle_bool_iff in E. exfalso. apply (Qlt_not_le a b); assumption.
Qed.

Lemma Qle_bool_iff_false_like (a b : Q) : Qle_bool a b = false -> (b < a)%Q.
Proof.
  intros H. apply Qnot_le_lt. intros H'. apply Qle_bool_iff in H'. congruence.
Qed.

Lemma round_cases (q : Q) :
  round_half_even q = Qfloor q \/ round_half_even q = Qfloor q + 1.
Proof.
  unfold round_half_even.
  destruct (Qlt_bool _ _); [auto|]. destruct (Qlt_bool _ _); [auto|].
  destruct (Z.even _); auto.
Qed.

Lemma round_le (q : Q) (n : Z) : (q < inject_Z n)%Q -> round_half_even q <= n.
Proof.
  intros H. pose proof (Qfloor_le q) as Hf.
  assert (Qfloor q < n).
  { rewrite Zlt_Qlt. eapply Qle_lt_trans; eauto. }
  destruct (round_cases q) as [->| ->]; lia.
Qed.

Lemma round_ge (q : Q) (n : Z) : (inject_Z n <= q)%Q -> n <= round_half_even q.
Proof.
  intros H. pose proof (Qlt_floor q) as Hf.
  assert (n < Qfloor q + 1).
  { rewrite Zlt_Qlt. eapply Qle_lt_trans; eauto. }
  destruct (round_cases q) as [->| ->]; lia.
Qed.

(** ** Widths of the formatted fields *)

Lemma format_fixed_min (sflag : SignFlag) (zero : bool) (w prec : nat) (x : Q) :
  (w <= String.length (format_fixed sflag zero w prec x))%nat.
Proof.
  unfold format_fixed. destruct zero.
  - rewrite slen_app, slen_rjust. lia.
  - rewrite slen_rjust. lia.
Qed.

Lemma format_float_min (w prec : nat) (x : Q) :
  (w <= String.length (format_float w prec x))%nat.
Proof. apply format_fixed_min. Qed.

Lemma line2_length (inc raan ecc argp anom mm : Q) :
  String.length (tle_line2 inc raan ecc argp anom mm) =
  (2 + 5 + 1 + String.length (format_float 8 4 inc) + 1
   + String.length (format_float 8 4 raan) + 1
   + Nat.max 7 (String.length (ecc_str ecc)) + 1
   + String.length (format_float 8 4 argp) + 1
   + String.length (format_float 8 4 anom) + 1
   + String.length (format_float 11 8 mm) + 5)%nat.
Proof.
  unfold tle_line2. rewrite !slen_app, slen_ljust.
  assert (E1 : String.length (format_int true 5 sat_number) = 5%nat) by reflexivity.
  assert (E2 : String.length (format_int true 5 rev_number) = 5%nat) by reflexivity.
  rewrite E1, E2. cbn [String.length]. lia.
Qed.

(** Each field has at least its width, so line 2 has exactly 68 characters
    when, and only when, every field has exactly its width. *)
Lemma line2_wide_field (inc raan ecc argp anom mm : Q) :
  ((8 < String.length (format_float 8 4 inc))
   \/ (8 < String.length (format_float 8 4 raan))
   \/ (8 < String.length (format_float 8 4 argp))
   \/ (8 < String.length (format_float 8 4 anom)))%nat ->
  String.length (tle_line2 inc raan ecc argp anom mm) <> 68%nat.
Proof.
  rewrite line2_length.
  pose proof (format_float_min 8 4 inc). pose proof (format_float_min 8 4 raan).
  pose proof (format_float_min 8 4 argp). pose proof (format_float_min 8 4 anom).
  pose proof (format_float_min 11 8 mm). lia.
Qed.

Lemma line1_length (t : Time) :
  String.length (tle_line1 t) = (54 + Nat.max 14 (String.length (epoch_str t)))%nat.
Proof.
  unfold tle_line1. generalize (epoch_str t) as e; intros e.
  rewrite !slen_app, !slen_ljust.
  generalize (Nat.max 14 (String.length e)) as k; intros k.
  simpl. lia.
Qed.

Lemma epoch_str_length (t : Time) :
  valid_start_time t -> String.length (epoch_str t) = 14%nat.
Proof.
  intros [H0 H1]. unfold epoch_str. rewrite slen_app.
  assert (A : String.length (format_int true 2 (datetime_year t mod 100)) = 2%nat).
  { unfold format_int.
    pose proof (Z.mod_pos_bound (datetime_year t) 100 ltac:(lia)) as Hb.
    destruct (Z.ltb_spec (datetime_year t mod 100) 0); [lia|].
    rewrite slen_app, slen_rjust. cbn [String.length].
    assert (String.length (str_of_N (Z.to_N (Z.abs (datetime_year t mod 100)))) <= 2)%nat.
    { apply str_of_N_length; [lia|]. change (10 ^ N.of_nat 2)%N with 100%N. lia. }
    lia. }
  rewrite A.
  set (doy := (days_since_start_of_year t + 1)%Q).
  assert (Hd0 : (0 <= doy)%Q) by (unfold doy; lra).
  assert (Hd1 : (doy < 368)%Q) by (unfold doy; lra).
  unfold format_fixed.
  assert (Hneg : Qlt_bool doy 0 = false).
  { destruct (Qlt_bool doy 0) eqn:E; [|reflexivity].
    apply Qlt_bool_iff in E. lra. }
  rewrite Hneg.
  change (10 ^ Z.of_nat 8) with 100000000.
  pose proof (Qabs_pos doy Hd0) as Ha.
  set (m := round_half_even (Qabs doy * inject_Z 100000000)%Q).
  assert (Hm : 0 <= m <= 36800000000).
  { split.
    - apply round_ge. change (inject_Z 0) with 0%Q.
      change (inject_Z 100000000) with 100000000%Q. lra.
    - apply round_le. change (inject_Z 100000000) with 100000000%Q.
      change (inject_Z 36800000000) with 36800000000%Q. lra. }
  assert (Hip : 0 <= m / 100000000 <= 368).
  { split; [apply Z.div_pos | apply Z.div_le_upper_bound]; lia. }
  assert (Hfp : 0 <= m mod 100000000 < 100000000) by (apply Z.mod_pos_bound; lia).
  assert (Li : (String.length (str_of_N (Z.to_N (m / 100000000))) <= 3)%nat).
  { apply str_of_N_length; [lia|]. change (10 ^ N.of_nat 3)%N with 1000%N. lia. }
  assert (Lf : (String.length (str_of_N (Z.to_N (m mod 100000000))) <= 8)%nat).
  { apply str_of_N_length; [lia|]. change (10 ^ N.of_nat 8)%N with 100000000%N. lia. }
  cbn zeta. rewrite !slen_app, !slen_rjust, !slen_app, !slen_rjust. cbn [String.length].
  lia.
Qed.

Lemma line1_length_valid (t : Time) :
  valid_start_time t -> String.length (tle_line1 t) = 68%nat.
Proof. intros H. rewrite line1_length, epoch_str_length by exact H. reflexivity. Qed.

(** ** Loops *)

Section Loops.
Context {A B : Type}.

Lemma fold_left_res_ext (f g : B -> A -> Res B) (xs : list A) (acc : B) :
  (forall a x, f a x = g a x) -> fold_left_res f xs acc = fold_left_res g xs acc.
Proof.
  intros H. revert acc. induction xs as [|x xs IH]; intros acc; [reflexivity|].
  cbn [fold_left_res]. rewrite H. destruct (g acc x); cbn [bind]; auto.
Qed.

Lemma fold_append_one (h : A -> Res B) (xs : list A) (acc : list B) :
  fold_left_res (fun acc x => y <- h x ; Ok (acc ++ [y])%list) xs acc
  = (ys <- mapM h xs ; Ok (acc ++ ys)%list).
Proof.
  revert acc. induction xs as [|x xs IH]; intros acc.
  - cbn. now rewrite app_nil_r.
  - cbn [fold_left_res mapM]. destruct (h x) as [y|e]; cbn [bind]; [|reflexivity].
    rewrite IH. destruct (mapM h xs) as [ys|e]; cbn [bind]; [|reflexivity].
    now rewrite <- app_assoc.
Qed.

Lemma fold_append_many (g : A -> Res (list B)) (xs : list A) (acc : list B) :
  fold_left_res (fun acc x => ys <- g x ; Ok (acc ++ ys)%list) xs acc
  = (yss <- mapM g xs ; Ok (acc ++ concat yss)%list).
Proof.
  revert acc. induction xs as [|x xs IH]; intros acc.
  - cbn. now rewrite app_nil_r.
  - cbn [fold_left_res mapM]. destruct (g x) as [ys|e]; cbn [bind]; [|reflexivity].
    rewrite IH. destruct (mapM g xs) as [yss|e]; cbn [bind concat]; [|reflexivity].
    now rewrite <- app_assoc.
Qed.



Lemma mapM_raise (g : A -> Res B) (xs : list A) (x : A) (e : PyExc) :
  In x xs -> g x = Raise e -> exists e', mapM g xs = Raise e'.
Proof.
  induction xs as [|x0 xs IH]; intros Hin Hg; [destruct Hin|].
  cbn. destruct Hin as [<-|Hin].
  - rewrite Hg. cbn. eauto.
  - destruct (g x0); cbn [bind]; [|eauto].
    destruct (IH Hin Hg) as [e' ->]. cbn. eauto.
Qed.


End Loops.



Lemma range_In (n x : Z) : 0 <= x < n -> In x (range n).
Proof.
  intros H. unfold range. apply in_map_iff. exists (Z.to_nat x).
  split; [lia|]. apply in_seq. lia.
Qed.

(** [forge_tle_belt] as the concatenation, plane by plane, of the records of
    each plane. *)
Lemma forge_tle_belt_planes ucd mm n p altitude_km eccentricity inclination_deg argp_deg t :
  forge_tle_belt ucd mm n p altitude_km eccentricity inclination_deg argp_deg t =
  (step <- float_div_int 360 n ;
   yss <- mapM (fun i => mapM (fun j =>
            forge_tle_single ucd mm (belt_sat_name i j) (altitude_km * 1000)%Q
              eccentricity inclination_deg (inject_Z i * 10)%Q argp_deg
              (inject_Z j * step)%Q t) (range n)) (range p) ;
   Ok (concat yss)).
Proof.
  unfold forge_tle_belt. destruct (float_div_int 360 n) as [step|e]; cbn [bind]; [|reflexivity].
  rewrite (fold_left_res_ext _ (fun acc i => ys <- mapM (fun j =>
            forge_tle_single ucd mm (belt_sat_name i j) (altitude_km * 1000)%Q
              eccentricity inclination_deg (inject_Z i * 10)%Q argp_deg
              (inject_Z j * step)%Q t) (range n) ; Ok (acc ++ ys)%list)).
  - rewrite fold_append_many. reflexivity.
  - intros acc i. exact (fold_append_one (fun j =>
            forge_tle_single ucd mm (belt_sat_name i j) (altitude_km * 1000)%Q
              eccentricity inclination_deg (inject_Z i * 10)%Q argp_deg
              (inject_Z j * step)%Q t) (range n) acc).
Qed.



(** ** The two length checks of [forge_tle_single] *)

Lemma forge_line1_error ucd mm sat_name alt ecc inc raan argp anom t :
  String.length (tle_line1 t) <> 68%nat ->
  forge_tle_single ucd mm sat_name alt ecc inc raan argp anom t = Raise line1_error.
Proof.
  intros H. unfold forge_tle_single.
  destruct (Nat.eqb_spec (String.length (tle_line1 t)) 68); [contradiction | reflexivity].
Qed.

Lemma forge_line2_error ucd mm sat_name alt ecc inc raan argp anom t :
  String.length (tle_line1 t) = 68%nat ->
  String.length (tle_line2 inc raan ecc argp anom (mm alt)) <> 68%nat ->
  forge_tle_single ucd mm sat_name alt ecc inc raan argp anom t = Raise line2_error.
Proof.
  intros H1 H2. unfold forge_tle_single.
  destruct (Nat.eqb_spec (String.length (tle_line1 t)) 68); [|contradiction]. cbn [negb].
  destruct (Nat.eqb_spec (String.length (tle_line2 inc raan ecc argp anom (mm alt))) 68);
    [contradiction | reflexivity].
Qed.

Lemma forge_line_error ucd mm sat_name alt ecc inc raan argp anom t :
  (String.length (tle_line1 t) <> 68
   \/ String.length (tle_line2 inc raan ecc argp anom (mm alt)) <> 68)%nat ->
  forge_tle_single ucd mm sat_name alt ecc inc raan argp anom t = Raise line1_error
  \/ forge_tle_single ucd mm sat_name alt ecc inc raan argp anom t = Raise line2_error.
Proof.
  intros H.
  destruct (Nat.eq_dec (String.length (tle_line1 t)) 68) as [H1|H1].
  - right. apply forge_line2_error; [exact H1|]. destruct H; [contradiction | exact H].
  - left. now apply forge_line1_error.
Qed.

(** A record of the belt that raises aborts the whole belt. *)
Lemma forge_tle_belt_raise ucd mm n p alt ecc inc argp t i j e :
  0 <= i < p -> 0 <= j < n ->
  forge_tle_single ucd mm (belt_sat_name i j) (alt * 1000)%Q ecc inc (inject_Z i * 10)%Q
    argp (inject_Z j * (360 / inject_Z n))%Q t = Raise e ->
  exists e', forge_tle_belt ucd mm n p alt ecc inc argp t = Raise e'.
Proof.
  intros Hi Hj He. rewrite forge_tle_belt_planes.
  unfold float_div_int. destruct (Z.eqb_spec n 0) as [|_]; [lia|]. cbn [bind].
  destruct (mapM_raise (fun j => forge_tle_single ucd mm (belt_sat_name i j)
              (alt * 1000)%Q ecc inc (inject_Z i * 10)%Q argp
              (inject_Z j * (360 / inject_Z n))%Q t) (range n) j e
              (range_In n j Hj) He) as [e1 He1].
  destruct (mapM_raise (fun i => mapM (fun j => forge_tle_single ucd mm
              (belt_sat_name i j) (alt * 1000)%Q ecc inc (inject_Z i * 10)%Q argp
              (inject_Z j * (360 / inject_Z n))%Q t) (range n))
              (range p) i e1 (range_In p i Hi) He1) as [e2 ->].
  cbn. eauto.
Qed.


Lemma format_float_wide (x : Q) : (1000 <= x \/ x <= -100)%Q ->
  (8 < String.length (format_float 8 4 x))%nat.
Proof.
  intros Hx. unfold format_float, format_fixed. cbn zeta.
  change (10 ^ Z.of_nat 4) with 10000.
  set (m := round_half_even (Qabs x * inject_Z 10000)%Q).
  rewrite slen_rjust, !slen_app, slen_rjust.
  cbn [String.length].
  destruct Hx as [Hx|Hx].
  - pose proof (Qabs_pos x ltac:(lra)) as Ha.
    assert (Hm : 10000000 <= m).
    { apply round_ge. change (inject_Z 10000) with 10000%Q.
      change (inject_Z 10000000) with 10000000%Q. lra. }
    assert (Hip : 1000 <= m / 10000) by (apply Z.div_le_lower_bound; lia).
    assert (~ (String.length (str_of_N (Z.to_N (m / 10000))) <= 3)%nat).
    { rewrite str_of_N_length by lia. change (10 ^ N.of_nat 3)%N with 1000%N. lia. }
    lia.
  - pose proof (Qabs_neg x ltac:(lra)) as Ha.
    assert (Hm : 1000000 <= m).
    { apply round_ge. change (inject_Z 10000) with 10000%Q.
      change (inject_Z 1000000) with 1000000%Q. lra. }
    assert (Hip : 100 <= m / 10000) by (apply Z.div_le_lower_bound; lia).
    assert (~ (String.length (str_of_N (Z.to_N (m / 10000))) <= 2)%nat).
    { rewrite str_of_N_length by lia. change (10 ^ N.of_nat 2)%N with 100%N. lia. }
    assert (Hneg : Qlt_bool x 0 = true) by (apply Qlt_bool_iff; lra).
    rewrite Hneg. cbn [String.length]. lia.
Qed.

(** ** The leading-zero scientific encoder *)

Lemma inject_pow10_succ (k : nat) :
  (inject_Z (10 ^ Z.of_nat (S k)) == inject_Z (10 ^ Z.of_nat k) * 10)%Q.
Proof. rewrite Nat2Z.inj_succ, Z.pow_succ_r by lia. rewrite inject_Z_mult. apply Qmult_comm. Qed.

Lemma inject_pow10_pos (k : nat) : (1 <= inject_Z (10 ^ Z.of_nat k))%Q.
Proof.
  change 1%Q with (inject_Z 1). rewrite <- Zle_Qle.
  pose proof (Z.pow_pos_nonneg 10 (Z.of_nat k)). lia.
Qed.

Lemma scale_down_spec (fuel : nat) (vabs : Q) (e : Z) :
  (1 <= vabs)%Q -> 9 - e <= Z.of_nat fuel ->
  exists (k : nat) (v : Q),
    scale_down fuel vabs e = (v, e + Z.of_nat k) /\
    (v * inject_Z (10 ^ Z.of_nat k) == vabs)%Q /\ (1 <= v)%Q /\
    ((v < 10)%Q \/ 9 <= e + Z.of_nat k) /\ (k = 0%nat \/ e + Z.of_nat k <= 9).
Proof.
  revert vabs e. induction fuel as [|f IH]; intros vabs e H1 Hf.
  - exists 0%nat, vabs. cbn [scale_down]. split; [f_equal; lia|]. split; [change (inject_Z (10 ^ Z.of_nat 0)) with 1%Q; lra|].
    split; [lra|]. split; [right; lia | left; reflexivity].
  - cbn [scale_down].
    destruct (Qle_bool 10 vabs) eqn:E1; destruct (Z.ltb_spec e 9) as [He|He]; cbn [andb].
    + apply Qle_bool_iff in E1.
      assert (Hd : (1 <= vabs / 10)%Q).
      { apply Qle_shift_div_l; [reflexivity|]. lra. }
      destruct (IH (vabs / 10)%Q (e + 1) Hd ltac:(lia))
        as (k & v & Heq & Hv & Hv1 & Hstop & Hk).
      exists (S k), v. rewrite Heq. split; [f_equal; lia|].
      rewrite inject_pow10_succ. split; [rewrite Qmult_assoc, Hv; field|]. split; [exact Hv1|]. split.
      * destruct Hstop; [left; assumption | right; lia].
      * right; lia.
    + exists 0%nat, vabs. split; [f_equal; lia|]. split; [change (inject_Z (10 ^ Z.of_nat 0)) with 1%Q; lra|].
      split; [lra|]. split; [right; lia | left; reflexivity].
    + exists 0%nat, vabs. apply Qle_bool_iff_false_like in E1.
      split; [f_equal; lia|]. split; [change (inject_Z (10 ^ Z.of_nat 0)) with 1%Q; lra|].
      split; [lra|]. split; [left; exact E1 | left; reflexivity].
    + exists 0%nat, vabs. split; [f_equal; lia|]. split; [change (inject_Z (10 ^ Z.of_nat 0)) with 1%Q; lra|].
      split; [lra|]. split; [right; lia | left; reflexivity].
Qed.


Lemma round_lt_half (q : Q) (n : Z) : (q < inject_Z n + (1 # 2))%Q -> round_half_even q <= n.
Proof.
  intros H. pose proof (Qfloor_le q) as Hf.
  assert (Hfl : Qfloor q < n + 1).
  { rewrite Zlt_Qlt, inject_Z_plus. change (inject_Z 1) with 1%Q. lra. }
  destruct (Z.eq_dec (Qfloor q) n) as [E|E].
  - unfold round_half_even; cbv zeta. rewrite E.
    assert (Hd : Qlt_bool (q - inject_Z n) (1 # 2) = true) by (apply Qlt_bool_iff; lra).
    rewrite Hd. lia.
  - destruct (round_cases q) as [->| ->]; lia.
Qed.

Lemma round_ge_half (q : Q) (n : Z) :
  Z.odd n = true -> (inject_Z n + (1 # 2) <= q)%Q -> n + 1 <= round_half_even q.
Proof.
  intros Ho H. pose proof (Qlt_floor q) as Hf. rewrite inject_Z_plus in Hf.
  change (inject_Z 1) with 1%Q in Hf.
  assert (Hfl : n <= Qfloor q).
  { assert (n < Qfloor q + 1); [|lia]. rewrite Zlt_Qlt, inject_Z_plus.
    change (inject_Z 1) with 1%Q. lra. }
  destruct (Z.eq_dec (Qfloor q) n) as [E|E].
  - unfold round_half_even; cbv zeta. rewrite E.
    destruct (Qlt_bool (q - inject_Z n) (1 # 2)) eqn:E1;
      [apply Qlt_bool_iff in E1; lra|].
    destruct (Qlt_bool (1 # 2) (q - inject_Z n)) eqn:E2; [lia|].
    rewrite <- Z.negb_odd, Ho. cbn [negb]. lia.
  - destruct (round_cases q) as [->| ->]; lia.
Qed.

Lemma scale_up_spec (fuel : nat) (vabs : Q) (e : Z) :
  (0 <= vabs < 10)%Q -> -9 <= e -> e + 9 <= Z.of_nat fuel ->
  exists (k : nat) (v : Q),
    scale_up fuel vabs e = (v, e - Z.of_nat k) /\
    (vabs * inject_Z (10 ^ Z.of_nat k) == v)%Q /\ (0 <= v < 10)%Q /\
    ((1 <= v)%Q \/ e - Z.of_nat k = -9) /\ -9 <= e - Z.of_nat k /\
    (k = 0%nat \/ (vabs < 1)%Q).
Proof.
  revert vabs e. induction fuel as [|f IH]; intros vabs e H1 He Hf.
  - exists 0%nat, vabs. cbn [scale_up]. split; [f_equal; lia|].
    split; [change (inject_Z (10 ^ Z.of_nat 0)) with 1%Q; lra|].
    split; [lra|]. split; [right; lia|]. split; [lia | left; reflexivity].
  - cbn [scale_up].
    destruct (Qlt_bool vabs 1) eqn:E1; destruct (Z.ltb_spec (-9) e) as [He'|He']; cbn [andb].
    + apply Qlt_bool_iff in E1.
      destruct (IH (vabs * 10)%Q (e - 1) ltac:(lra) ltac:(lia) ltac:(lia))
        as (k & v & Heq & Hv & Hv1 & Hstop & Hk & _).
      exists (S k), v. rewrite Heq. split; [f_equal; lia|].
      rewrite inject_pow10_succ. split; [rewrite <- Hv; ring|]. split; [exact Hv1|].
      split; [destruct Hstop; [left; assumption | right; lia]|].
      split; [lia | right; exact E1].
    + apply Qlt_bool_iff in E1.
      exists 0%nat, vabs. split; [f_equal; lia|].
      split; [change (inject_Z (10 ^ Z.of_nat 0)) with 1%Q; lra|].
      split; [lra|]. split; [right; lia|]. split; [lia | left; reflexivity].
    + exists 0%nat, vabs. unfold Qlt_bool in E1. apply negb_false_iff, Qle_bool_iff in E1.
      split; [f_equal; lia|].
      split; [change (inject_Z (10 ^ Z.of_nat 0)) with 1%Q; lra|].
      split; [lra|]. split; [left; exact E1|]. split; [lia | left; reflexivity].
    + exists 0%nat, vabs. unfold Qlt_bool in E1. apply negb_false_iff, Qle_bool_iff in E1.
      split; [f_equal; lia|].
      split; [change (inject_Z (10 ^ Z.of_nat 0)) with 1%Q; lra|].
      split; [lra|]. split; [left; exact E1|]. split; [lia | left; reflexivity].
Qed.

Lemma lz_scientific_spec (x : Q) : (0 <= x)%Q ->
  exists (v : Q) (e0 : Z) (k : nat),
    lz_scientific x = (v, e0) /\ (k <= 9)%nat /\
    ((e0 = Z.of_nat k /\ (v * inject_Z (10 ^ Z.of_nat k) == x)%Q) \/
     (e0 = - Z.of_nat k /\ (x * inject_Z (10 ^ Z.of_nat k) == v)%Q /\ (x < 1)%Q)) /\
    (0 <= v)%Q /\ ((1 <= v)%Q \/ e0 = -9) /\ ((v < 10)%Q \/ e0 = 9).
Proof.
  intros Hx. unfold lz_scientific.
  destruct (Qle_bool 1 x) eqn:E.
  - apply Qle_bool_iff in E.
    destruct (scale_down_spec 9 x 0 E ltac:(lia)) as (k & v & Heq & Hv & Hv1 & Hstop & Hk).
    rewrite Heq. exists v, (0 + Z.of_nat k), k.
    split; [reflexivity|]. split; [destruct Hk; lia|].
    split; [left; split; [lia | exact Hv]|]. split; [lra|]. split; [left; exact Hv1|].
    destruct Hstop; [left; assumption | right; destruct Hk; lia].
  - apply Qle_bool_iff_false_like in E.
    destruct (scale_up_spec 9 x 0 ltac:(lra) ltac:(lia) ltac:(lia))
      as (k & v & Heq & Hv & [Hv0 Hv10] & Hstop & Hk & _).
    rewrite Heq. exists v, (0 - Z.of_nat k), k.
    split; [reflexivity|]. split; [lia|].
    split; [right; split; [lia | split; [exact Hv | exact E]]|].
    split; [lra|]. split; [destruct Hstop; [left; assumption | right; lia]|]. left; lra.
Qed.

Lemma div10_bounds (r : Z) : 0 <= r -> (r / 10 < 100000 <-> r < 1000000) /\ 0 <= r / 10.
Proof.
  intros Hr. pose proof (Z.div_mod r 10 ltac:(lia)) as Hd.
  pose proof (Z.mod_pos_bound r 10 ltac:(lia)) as Hm.
  remember (r / 10) as q. remember (r mod 10) as s. lia.
Qed.

Lemma lz_round_spec (v : Q) (e0 : Z) : (0 <= v)%Q -> -9 <= e0 <= 9 ->
  exists m e, lz_round v e0 = (m, e) /\ 0 <= m /\ -9 <= e <= 9 /\
    (m < 100000 <-> round_half_even (v * 10000)%Q < 1000000) /\
    ((v < 10)%Q -> m < 100000) /\
    (e = e0 \/ (100000 <= round_half_even (v * 10000)%Q /\ e = Z.min (e0 + 1) 9)).
Proof.
  intros Hv He. unfold lz_round.
  assert (Hr : 0 <= round_half_even (v * 10000)%Q).
  { apply round_ge. change (inject_Z 0) with 0%Q. lra. }
  remember (round_half_even (v * 10000)%Q) as r eqn:Er.
  destruct (Z.leb_spec 100000 r) as [Hbig|Hsmall].
  - destruct (div10_bounds r Hr) as [Hiff Hq].
    exists (r / 10), (if 9 <? e0 + 1 then 9 else e0 + 1).
    split; [reflexivity|]. split; [exact Hq|].
    split; [destruct (Z.ltb_spec 9 (e0 + 1)); lia|]. split; [exact Hiff|].
    split.
    + intros H10. assert (r <= 100000).
      { rewrite Er. apply round_le. change (inject_Z 100000) with 100000%Q. lra. }
      apply Hiff. lia.
    + right. split; [exact Hbig|]. destruct (Z.ltb_spec 9 (e0 + 1)); lia.
  - exists r, e0. split; [reflexivity|]. split; [exact Hr|]. split; [lia|].
    split; [lia|]. split; [intros; lia | left; reflexivity].
Qed.


(** At the top exponent the normalised value is the input divided by [10^9]. *)
Lemma lz_top_exponent (v x : Q) (k : nat) :
  (k <= 9)%nat ->
  ((Z.of_nat 9 = Z.of_nat k /\ (v * inject_Z (10 ^ Z.of_nat k) == x)%Q) \/
   (Z.of_nat 9 = - Z.of_nat k /\ (x * inject_Z (10 ^ Z.of_nat k) == v)%Q /\ (x < 1)%Q)) ->
  (v * 1000000000 == x)%Q.
Proof.
  intros Hk [[Ek Hp]|[Ek _]]; [|lia].
  assert (k = 9%nat) by lia. subst k. exact Hp.
Qed.

(** The rounded mantissa stays below [1000000] exactly when the input is
    below [99999950000]. *)
Lemma lz_mantissa_iff (x v : Q) (e0 : Z) (k : nat) :
  (k <= 9)%nat ->
  ((e0 = Z.of_nat k /\ (v * inject_Z (10 ^ Z.of_nat k) == x)%Q) \/
   (e0 = - Z.of_nat k /\ (x * inject_Z (10 ^ Z.of_nat k) == v)%Q /\ (x < 1)%Q)) ->
  (0 <= v)%Q -> ((v < 10)%Q \/ e0 = 9) ->
  (round_half_even (v * 10000)%Q < 1000000 <-> (x < 99999950000)%Q).
Proof.
  intros Hk Hpow Hv0 Hv10. split.
  - intros Hr. destruct (Qlt_le_dec x 99999950000) as [|Hge]; [assumption|exfalso].
    assert (Hx9 : (v * 1000000000 == x)%Q).
    { destruct (Nat.eq_dec k 9) as [->|Hk9].
      - destruct Hpow as [[_ Hp]|[_ [_ Hx1]]]; [exact Hp | lra].
      - destruct Hv10 as [Hv10|E9].
        + exfalso. destruct Hpow as [[_ Hp]|[_ [_ Hx1]]]; [|lra].
          assert (Hpk : (inject_Z (10 ^ Z.of_nat k) <= 1000000000)%Q).
          { change 1000000000%Q with (inject_Z (10 ^ 9)). rewrite <- Zle_Qle.
            apply Z.pow_le_mono_r; lia. }
          assert (Hm : (v * inject_Z (10 ^ Z.of_nat k) <= 10 * 1000000000)%Q).
          { apply Qmult_le_compat_nonneg; split; try lra. apply Qle_trans with 1%Q;
              [lra | apply inject_pow10_pos]. }
          lra.
        + subst e0. apply (lz_top_exponent v x k Hk Hpow). }
    assert (Hge' : 999999 + 1 <= round_half_even (v * 10000)%Q).
    { apply round_ge_half; [reflexivity|]. change (inject_Z 999999) with 999999%Q. lra. }
    lia.
  - intros Hx. destruct Hv10 as [Hlt|H9].
    + assert (round_half_even (v * 10000)%Q <= 100000); [|lia].
      apply round_le. change (inject_Z 100000) with 100000%Q. lra.
    + subst e0. pose proof (lz_top_exponent v x k Hk Hpow) as Hx9.
      assert (round_half_even (v * 10000)%Q <= 999999); [|lia].
      apply round_lt_half. change (inject_Z 999999) with 999999%Q. lra.
Qed.

Lemma format_leading_zero_nonzero (value v : Q) (e0 m e : Z) :
  Qlt_bool (Qabs value) (1 # Pos.pow 10 99) = false ->
  lz_scientific (Qabs value) = (v, e0) -> lz_round v e0 = (m, e) ->
  format_leading_zero value =
    (if Qlt_bool value 0 then "-" else " ") ++ format_int true 5 m ++
    (if e <? 0 then "-" else "+") ++ str_of_N (Z.to_N (Z.abs e)).
Proof. intros H1 H2 H3. unfold format_leading_zero. rewrite H1, H2, H3. reflexivity. Qed.

Lemma format_int_zero_pad (w : nat) (m : Z) :
  0 <= m -> format_int true w m = rjust "0" w (str_of_N (Z.to_N m)).
Proof.
  intros Hm. unfold format_int. destruct (Z.ltb_spec m 0); [lia|].
  rewrite Z.abs_eq by lia. cbn [String.append String.length]. rewrite Nat.sub_0_r.
  reflexivity.
Qed.

Lemma lz_round_cases (v : Q) (e0 m e : Z) :
  lz_round v e0 = (m, e) ->
  (round_half_even (v * 10000)%Q < 100000 /\ m = round_half_even (v * 10000)%Q /\ e = e0) \/
  (100000 <= round_half_even (v * 10000)%Q /\ m = round_half_even (v * 10000)%Q / 10 /\
   e = Z.min (e0 + 1) 9).
Proof.
  unfold lz_round. intros H.
  destruct (Z.leb_spec 100000 (round_half_even (v * 10000)%Q)); injection H as <- <-.
  - right. split; [assumption|]. split; [reflexivity|].
    destruct (Z.ltb_spec 9 (e0 + 1)); lia.
  - left. split; [lia|]. split; reflexivity.
Qed.

(** On ASCII text the checksum of the code is the one of the specification. *)
Lemma checksum_sum_ascii (ucd : N -> DigitClass) (line : pystr) (acc : nat) :
  Forall (fun ch => (ch < 128)%N) line ->
  checksum_sum ucd line acc = Ok (fold_left (fun a ch => a + checksum_term_spec ch)%nat line acc).
Proof.
  revert acc. induction line as [|ch rest IH]; intros acc Hl; [reflexivity|].
  inversion Hl as [|? ? Hch Hrest]; subst.
  cbn [checksum_sum fold_left].
  assert (Hterm : (if isdigit ucd ch then int_of_char ucd ch
                   else if (ch =? 45)%N then Ok 1%nat else Ok 0%nat) =
                  Ok (checksum_term_spec ch)).
  { unfold isdigit, int_of_char, digit_class, checksum_term_spec.
    destruct (N.ltb_spec ch 256) as [_|]; [|lia].
    unfold latin1_digit_class.
    destruct ((48 <=? ch) && (ch <=? 57))%N; [reflexivity|].
    destruct (N.eqb_spec ch 178); [lia|]. destruct (N.eqb_spec ch 179); [lia|].
    destruct (N.eqb_spec ch 185); [lia|]. cbn [orb]. destruct (ch =? 45)%N; reflexivity. }
  rewrite Hterm. cbn [bind]. apply IH, Hrest.
Qed.

Lemma compute_tle_checksum_ascii (ucd : N -> DigitClass) (line : pystr) :
  Forall (fun ch => (ch < 128)%N) line ->
  _compute_tle_checksum ucd line = Ok (checksum_spec line).
Proof.
  intros Hl. unfold _compute_tle_checksum, checksum_spec.
  rewrite (checksum_sum_ascii ucd line 0 Hl). reflexivity.
Qed.

Lemma substring_all (s : string) : substring 0 (String.length s) s = s.
Proof. induction s as [|c s IH]; cbn; [reflexivity | now rewrite IH]. Qed.

(** Below the rounding to [1.0000000], the eccentricity field is the seven
    fractional digits of the rendering. *)
Lemma ecc_str_fraction (e : Q) :
  (0 <= e)%Q ->
  round_half_even (Qabs e * inject_Z (10 ^ Z.of_nat 7))%Q < 10 ^ 7 ->
  ecc_str e = rjust "0" 7 (str_of_N (Z.to_N
                (round_half_even (Qabs e * inject_Z (10 ^ Z.of_nat 7))%Q))).
Proof.
  intros He Hm. unfold ecc_str, format_fixed.
  assert (Hneg : Qlt_bool e 0 = false).
  { unfold Qlt_bool. apply negb_false_iff, Qle_bool_iff. exact He. }
  rewrite Hneg. cbv zeta.
  assert (H0 : 0 <= round_half_even (Qabs e * inject_Z (10 ^ Z.of_nat 7))%Q).
  { apply round_ge. pose proof (Qabs_nonneg e). pose proof (inject_pow10_pos 7).
    change (inject_Z 0) with 0%Q. apply Qmult_le_0_compat; lra. }
  remember (round_half_even (Qabs e * inject_Z (10 ^ Z.of_nat 7))%Q) as m.
  rewrite (Z.div_small m) by (cbn; lia). rewrite (Z.mod_small m) by (cbn; lia).
  set (Y := rjust "0"%char 7 (str_of_N (Z.to_N m))).
  change (str_of_N (Z.to_N 0)) with "0". unfold rjust.
  cbn [String.append String.length repeat_char Nat.sub].
  unfold str_drop. cbn [String.length String.append Nat.sub substring].
  rewrite Nat.sub_0_r. apply substring_all.
Qed.

(** ** The forged lines are ASCII text *)

Ltac ascii_lit := unfold ascii_text; cbn; repeat constructor.

Lemma ascii_app (s1 s2 : string) :
  ascii_text s1 -> ascii_text s2 -> ascii_text (s1 ++ s2).
Proof.
  unfold ascii_text. induction s1 as [|a s1 IH]; cbn; intros H1 H2; [exact H2|].
  inversion H1; subst. constructor; auto.
Qed.

Lemma ascii_repeat (c : ascii) (k : nat) :
  (N_of_ascii c < 128)%N -> ascii_text (repeat_char c k).
Proof. intros Hc. unfold ascii_text. induction k; cbn; constructor; auto. Qed.

Lemma ascii_digit (d : N) : (d < 10)%N -> ascii_text (String (digit_char d) EmptyString).
Proof.
  intros Hd. unfold ascii_text, digit_char. cbn [list_ascii_of_string].
  constructor; [|constructor].
  rewrite N_ascii_embedding by lia. lia.
Qed.

Lemma ascii_str_of_N (n : N) : ascii_text (str_of_N n).
Proof.
  unfold str_of_N. generalize (S (N.size_nat n)) as f. intros f. revert n.
  induction f as [|f IH]; intros n; cbn [str_of_N_fuel]; [constructor|].
  destruct (n <? 10)%N eqn:E.
  - apply ascii_digit. apply N.ltb_lt, E.
  - apply ascii_app; [apply IH | apply ascii_digit, N.mod_lt; discriminate].
Qed.

Lemma ascii_rjust (c : ascii) (w : nat) (s : string) :
  (N_of_ascii c < 128)%N -> ascii_text s -> ascii_text (rjust c w s).
Proof. intros Hc Hs. apply ascii_app; [apply ascii_repeat, Hc | exact Hs]. Qed.

Lemma ascii_ljust (w : nat) (s : string) : ascii_text s -> ascii_text (ljust w s).
Proof. intros Hs. apply ascii_app; [exact Hs | apply ascii_repeat; reflexivity]. Qed.

Lemma ascii_format_int (zero : bool) (w : nat) (n : Z) : ascii_text (format_int zero w n).
Proof.
  unfold format_int. assert (Hs : ascii_text (if n <? 0 then "-" else EmptyString))
    by (destruct (n <? 0); ascii_lit).
  destruct zero; [apply ascii_app; [exact Hs|]|]; apply ascii_rjust; try reflexivity;
    try apply ascii_app; try exact Hs; apply ascii_str_of_N.
Qed.

Lemma ascii_format_fixed (sflag : SignFlag) (zero : bool) (w prec : nat) (x : Q) :
  ascii_text (format_fixed sflag zero w prec x).
Proof.
  unfold format_fixed. cbv zeta.
  assert (Hs : ascii_text (if Qlt_bool x 0 then "-"
                           else match sflag with SignPlus => "+" | SignMinus => EmptyString end))
    by (destruct (Qlt_bool x 0), sflag; ascii_lit).
  assert (Hb : ascii_text
    (str_of_N (Z.to_N (round_half_even (Qabs x * inject_Z (10 ^ Z.of_nat prec)) /
                       10 ^ Z.of_nat prec)) ++
     match prec with
     | O => EmptyString
     | S _ => "." ++ rjust "0" prec (str_of_N (Z.to_N
                (round_half_even (Qabs x * inject_Z (10 ^ Z.of_nat prec)) mod
                 10 ^ Z.of_nat prec)))
     end)).
  { apply ascii_app; [apply ascii_str_of_N|]. destruct prec; [constructor|].
    apply (ascii_app "."); [ascii_lit|]. apply ascii_rjust; [reflexivity | apply ascii_str_of_N]. }
  destruct zero; [apply ascii_app; [exact Hs|]|]; apply ascii_rjust; try reflexivity;
    first [assumption | apply ascii_app; assumption].
Qed.

Lemma ascii_substring (n m : nat) (s : string) : ascii_text s -> ascii_text (substring n m s).
Proof.
  unfold ascii_text. revert n m. induction s as [|a s IH]; intros n m Hs.
  - destruct n, m; cbn; constructor.
  - inversion Hs; subst. destruct n as [|n], m as [|m]; cbn; try constructor; auto.
Qed.

Lemma ascii_line1 (t : Time) : ascii_text (tle_line1 t).
Proof.
  unfold tle_line1, epoch_str, mm_dot_string, str_take, str_drop.
  repeat first [ apply ascii_format_int | apply ascii_format_fixed | apply ascii_app
                | apply ascii_ljust | apply ascii_substring | solve [ascii_lit]
                | (apply ascii_repeat; reflexivity) ].
Qed.

Lemma ascii_line2 (inc raan ecc argp anom mm : Q) :
  ascii_text (tle_line2 inc raan ecc argp anom mm).
Proof.
  unfold tle_line2, ecc_str, format_float, str_drop.
  repeat first [ apply ascii_format_int | apply ascii_format_fixed | apply ascii_app
                | apply ascii_ljust | apply ascii_substring | solve [ascii_lit]
                | (apply ascii_repeat; reflexivity) ].
Qed.

Lemma lit_ascii (s : string) : ascii_text s -> Forall (fun ch => (ch < 128)%N) (lit s).
Proof. intros Hs. unfold lit. apply Forall_map. exact Hs. Qed.

(** ** Exact widths of the rendered fields *)

Lemma Qabs_nonneg_eq (x : Q) : (0 <= x)%Q -> Qabs x = x.
Proof.
  destruct x as [n d]. unfold Qle. cbn. intros H. rewrite Z.abs_eq by lia. reflexivity.
Qed.

Lemma Qabs_neg_eq (x : Q) : (x <= 0)%Q -> Qabs x = (- x)%Q.
Proof.
  destruct x as [n d]. unfold Qle. cbn. intros H. unfold Qopp. cbn.
  rewrite Z.abs_neq by lia. reflexivity.
Qed.

Lemma round_le_iff (q : Q) (n : Z) :
  Z.odd n = true -> (round_half_even q <= n <-> (q < inject_Z n + (1 # 2))%Q).
Proof.
  intros Ho. split; intros H.
  - destruct (Qlt_le_dec q (inject_Z n + (1 # 2))) as [|H']; [assumption|].
    pose proof (round_ge_half q n Ho H'). lia.
  - apply round_lt_half, H.
Qed.

Lemma round_scaled_nonneg (x : Q) (p : nat) :
  0 <= round_half_even (Qabs x * inject_Z (10 ^ Z.of_nat p))%Q.
Proof.
  apply round_ge. change (inject_Z 0) with 0%Q. apply Qmult_le_0_compat;
    [apply Qabs_nonneg | pose proof (inject_pow10_pos p); lra].
Qed.

Lemma format_fixed_length (w p : nat) (x : Q) : (1 <= p)%nat ->
  String.length (format_fixed SignMinus false w p x) =
  Nat.max w ((if Qlt_bool x 0 then 1 else 0) +
             String.length (str_of_N (Z.to_N
               (round_half_even (Qabs x * inject_Z (10 ^ Z.of_nat p))%Q / 10 ^ Z.of_nat p)))
             + 1 + p)%nat.
Proof.
  intros Hp. unfold format_fixed. cbv zeta.
  pose proof (round_scaled_nonneg x p) as Hm.
  set (m := round_half_even (Qabs x * inject_Z (10 ^ Z.of_nat p))%Q) in *.
  assert (Hpow : 0 < 10 ^ Z.of_nat p) by (apply Z.pow_pos_nonneg; lia).
  assert (Hfp : (String.length (str_of_N (Z.to_N (m mod 10 ^ Z.of_nat p))) <= p)%nat).
  { apply str_of_N_length; [exact Hp|]. pose proof (Z.mod_pos_bound m _ Hpow).
    assert (Z.of_N (10 ^ N.of_nat p) = 10 ^ Z.of_nat p)
      by (rewrite N2Z.inj_pow, nat_N_Z; reflexivity).
    lia. }
  destruct p as [|p']; [lia|].
  rewrite slen_rjust, !slen_app. cbn [String.length String.append]. rewrite slen_rjust.
  destruct (Qlt_bool x 0); cbn [String.length]; lia.
Qed.

Lemma str_len_div_le (m : Z) (p k : nat) : 0 <= m -> (1 <= k)%nat ->
  ((String.length (str_of_N (Z.to_N (m / 10 ^ Z.of_nat p))) <= k)%nat <->
   m < 10 ^ Z.of_nat (k + p)).
Proof.
  intros Hm Hk. rewrite str_of_N_length by exact Hk.
  assert (E : Z.of_N (10 ^ N.of_nat k) = 10 ^ Z.of_nat k)
    by (rewrite N2Z.inj_pow, nat_N_Z; reflexivity).
  rewrite Nat2Z.inj_add, Z.pow_add_r by lia.
  assert (Hp : 0 < 10 ^ Z.of_nat p) by (apply Z.pow_pos_nonneg; lia).
  assert (Hk' : 0 < 10 ^ Z.of_nat k) by (apply Z.pow_pos_nonneg; lia).
  assert (Hd : 0 <= m / 10 ^ Z.of_nat p) by (apply Z.div_pos; lia).
  split; intros H.
  - destruct (Z.lt_ge_cases m (10 ^ Z.of_nat k * 10 ^ Z.of_nat p)) as [|Hge]; [assumption|].
    exfalso. pose proof (Z.div_le_lower_bound m (10 ^ Z.of_nat p) (10 ^ Z.of_nat k) Hp
                           ltac:(lia)). lia.
  - assert (m / 10 ^ Z.of_nat p < 10 ^ Z.of_nat k) by (apply Z.div_lt_upper_bound; lia).
    lia.
Qed.

Lemma slen_substring (n m : nat) (s : string) :
  String.length (substring n m s) = Nat.min m (String.length s - n).
Proof.
  revert n m. induction s as [|c s IH]; intros n m.
  - destruct n, m; reflexivity.
  - destruct n as [|n].
    + destruct m as [|m]; [reflexivity|]. cbn [substring String.length].
      rewrite IH. lia.
    + cbn [substring String.length]. rewrite IH. lia.
Qed.

Lemma slen_str_drop (k : nat) (s : string) :
  String.length (str_drop k s) = (String.length s - k)%nat.
Proof. unfold str_drop. rewrite slen_substring. lia. Qed.

Lemma angle_field_length (x : Q) :
  String.length (format_float 8 4 x) = 8%nat <->
  (-(9999995 # 100000) < x < 99999995 # 100000)%Q.
Proof.
  unfold format_float. rewrite format_fixed_length by lia.
  pose proof (round_scaled_nonneg x 4) as Hm.
  change (inject_Z (10 ^ Z.of_nat 4)) with 10000%Q in *.
  destruct (Qlt_bool x 0) eqn:Hs.
  - apply Qlt_bool_iff in Hs.
    assert (E1 : forall L, (Nat.max 8 (1 + L + 1 + 4) = 8 <-> L <= 2)%nat) by (intros; lia).
    rewrite E1, str_len_div_le by first [exact Hm | lia].
    change (10 ^ Z.of_nat (2 + 4)) with 1000000.
    assert (E2 : forall r, r < 1000000 <-> r <= 999999) by (intros; lia). rewrite E2.
    rewrite round_le_iff by reflexivity. rewrite Qabs_neg_eq by lra.
    change (inject_Z 999999) with 999999%Q.
    split; [intros H; split; lra | intros [H1 H2]; lra].
  - unfold Qlt_bool in Hs. apply negb_false_iff, Qle_bool_iff in Hs.
    assert (E1 : forall L, (Nat.max 8 (0 + L + 1 + 4) = 8 <-> L <= 3)%nat) by (intros; lia).
    rewrite E1, str_len_div_le by first [exact Hm | lia].
    change (10 ^ Z.of_nat (3 + 4)) with 10000000.
    assert (E2 : forall r, r < 10000000 <-> r <= 9999999) by (intros; lia). rewrite E2.
    rewrite round_le_iff by reflexivity. rewrite Qabs_nonneg_eq by lra.
    change (inject_Z 9999999) with 9999999%Q.
    split; [intros H; split; lra | intros [H1 H2]; lra].
Qed.

Lemma mm_field_length (y : Q) :
  String.length (format_float 11 8 y) = 11%nat <->
  (-(9999999995 # 1000000000) < y < 99999999995 # 1000000000)%Q.
Proof.
  unfold format_float. rewrite format_fixed_length by lia.
  pose proof (round_scaled_nonneg y 8) as Hm.
  change (inject_Z (10 ^ Z.of_nat 8)) with 100000000%Q in *.
  destruct (Qlt_bool y 0) eqn:Hs.
  - apply Qlt_bool_iff in Hs.
    assert (E1 : forall L, (Nat.max 11 (1 + L + 1 + 8) = 11 <-> L <= 1)%nat) by (intros; lia).
    rewrite E1, str_len_div_le by first [exact Hm | lia].
    change (10 ^ Z.of_nat (1 + 8)) with 1000000000.
    assert (E2 : forall r, r < 1000000000 <-> r <= 999999999) by (intros; lia). rewrite E2.
    rewrite round_le_iff by reflexivity. rewrite Qabs_neg_eq by lra.
    change (inject_Z 999999999) with 999999999%Q.
    split; [intros H; split; lra | intros [H1 H2]; lra].
  - unfold Qlt_bool in Hs. apply negb_false_iff, Qle_bool_iff in Hs.
    assert (E1 : forall L, (Nat.max 11 (0 + L + 1 + 8) = 11 <-> L <= 2)%nat) by (intros; lia).
    rewrite E1, str_len_div_le by first [exact Hm | lia].
    change (10 ^ Z.of_nat (2 + 8)) with 10000000000.
    assert (E2 : forall r, r < 10000000000 <-> r <= 9999999999) by (intros; lia). rewrite E2.
    rewrite round_le_iff by reflexivity. rewrite Qabs_nonneg_eq by lra.
    change (inject_Z 9999999999) with 9999999999%Q.
    split; [intros H; split; lra | intros [H1 H2]; lra].
Qed.

Lemma ecc_field_length (e : Q) :
  (String.length (ecc_str e) <= 7)%nat <-> (0 <= e < 999999995 # 100000000)%Q.
Proof.
  unfold ecc_str. rewrite slen_str_drop, format_fixed_length by lia.
  pose proof (round_scaled_nonneg e 7) as Hm.
  change (inject_Z (10 ^ Z.of_nat 7)) with 10000000%Q in *.
  destruct (Qlt_bool e 0) eqn:Hs.
  - apply Qlt_bool_iff in Hs.
    pose proof (str_of_N_nonempty
      (Z.to_N (round_half_even (Qabs e * 10000000)%Q / 10 ^ Z.of_nat 7))).
    split; [intros; lia | intros [H1 H2]; lra].
  - unfold Qlt_bool in Hs. apply negb_false_iff, Qle_bool_iff in Hs.
    assert (E1 : forall L, (Nat.max 0 (0 + L + 1 + 7) - 2 <= 7 <-> L <= 1)%nat)
      by (intros; lia).
    rewrite E1, str_len_div_le by first [exact Hm | lia].
    change (10 ^ Z.of_nat (1 + 7)) with 100000000.
    assert (E2 : forall r, r < 100000000 <-> r <= 99999999) by (intros; lia). rewrite E2.
    rewrite round_le_iff by reflexivity. rewrite Qabs_nonneg_eq by lra.
    change (inject_Z 99999999) with 99999999%Q.
    split; [intros H; split; lra | intros [H1 H2]; lra].
Qed.

Lemma line2_fits (inc raan ecc argp anom mm : Q) :
  String.length (tle_line2 inc raan ecc argp anom mm) = 68%nat <->
  ((-(9999995 # 100000) < inc < 99999995 # 100000)%Q /\
   (-(9999995 # 100000) < raan < 99999995 # 100000)%Q /\
   (-(9999995 # 100000) < argp < 99999995 # 100000)%Q /\
   (-(9999995 # 100000) < anom < 99999995 # 100000)%Q /\
   (0 <= ecc < 999999995 # 100000000)%Q /\
   (-(9999999995 # 1000000000) < mm < 99999999995 # 1000000000)%Q).
Proof.
  rewrite line2_length.
  rewrite <- (angle_field_length inc), <- (angle_field_length raan),
    <- (angle_field_length argp), <- (angle_field_length anom),
    <- ecc_field_length, <- mm_field_length.
  pose proof (format_float_min 8 4 inc). pose proof (format_float_min 8 4 raan).
  pose proof (format_float_min 8 4 argp). pose proof (format_float_min 8 4 anom).
  pose proof (format_float_min 11 8 mm).
  split; [intros HL; repeat split; lia | intros (HA & HB & HC & HD & HE & HF); lia].
Qed.

Lemma forge_tle_single_ok ucd mm sat_name alt ecc inc raan argp anom t :
  String.length (tle_line1 t) = 68%nat ->
  String.length (tle_line2 inc raan ecc argp anom (mm alt)) = 68%nat ->
  forge_tle_single ucd mm sat_name alt ecc inc raan argp anom t =
  Ok (sat_name ++ [10%N]
      ++ lit (tle_line1 t ++ str_of_N (N.of_nat (checksum_spec (lit (tle_line1 t)))))
      ++ [10%N]
      ++ lit (tle_line2 inc raan ecc argp anom (mm alt)
              ++ str_of_N (N.of_nat (checksum_spec
                   (lit (tle_line2 inc raan ecc argp anom (mm alt)))))))%list.
Proof.
  intros H1 H2. unfold forge_tle_single. cbv zeta. rewrite H1, H2. cbn [Nat.eqb negb].
  rewrite (compute_tle_checksum_ascii ucd _ (lit_ascii _ (ascii_line1 t))). cbn [bind].
  rewrite (compute_tle_checksum_ascii ucd _ (lit_ascii _ (ascii_line2 _ _ _ _ _ _))).
  reflexivity.
Qed.

(** ** Composition of the checksum *)

Lemma checksum_sum_acc (ucd : N -> DigitClass) (l : pystr) (acc : nat) :
  checksum_sum ucd l acc = (s <- checksum_sum ucd l 0 ; Ok (acc + s)%nat).
Proof.
  revert acc. induction l as [|ch rest IH]; intros acc.
  - cbn. rewrite Nat.add_0_r. reflexivity.
  - cbn [checksum_sum].
    destruct (if isdigit ucd ch then int_of_char ucd ch
              else if (ch =? 45)%N then Ok 1%nat else Ok 0%nat) as [term|e];
      [|reflexivity].
    cbn [bind]. rewrite (IH (acc + term)%nat), (IH (0 + term)%nat).
    destruct (checksum_sum ucd rest 0); cbn [bind]; [f_equal; lia | reflexivity].
Qed.

Lemma checksum_sum_app (ucd : N -> DigitClass) (l1 l2 : pystr) (acc : nat) :
  checksum_sum ucd (l1 ++ l2)%list acc = (s <- checksum_sum ucd l1 acc ; checksum_sum ucd l2 s).
Proof.
  revert acc. induction l1 as [|ch rest IH]; intros acc; [reflexivity|].
  cbn [checksum_sum app].
  destruct (if isdigit ucd ch then int_of_char ucd ch
            else if (ch =? 45)%N then Ok 1%nat else Ok 0%nat); [apply IH | reflexivity].
Qed.

(** ** Rounding under shifts *)

Lemma Qlt_bool_compat (a a' b b' : Q) :
  (a == a')%Q -> (b == b')%Q -> Qlt_bool a b = Qlt_bool a' b'.
Proof.
  intros Ha Hb.
  destruct (Qlt_bool a b) eqn:E1, (Qlt_bool a' b') eqn:E2; try reflexivity; exfalso.
  - apply Qlt_bool_iff in E1.
    assert (Qlt_bool a' b' = true) by (apply Qlt_bool_iff; lra). congruence.
  - apply Qlt_bool_iff in E2.
    assert (Qlt_bool a b = true) by (apply Qlt_bool_iff; lra). congruence.
Qed.

Lemma Qfloor_unique (q : Q) (z : Z) :
  (inject_Z z <= q)%Q -> (q < inject_Z (z + 1))%Q -> Qfloor q = z.
Proof.
  intros H1 H2. pose proof (Qfloor_resp_le _ _ H1) as H3. rewrite Qfloor_Z in H3.
  pose proof (Qfloor_le q) as H4.
  assert (Qfloor q < z + 1) by (rewrite Zlt_Qlt; eapply Qle_lt_trans; eauto). lia.
Qed.

Lemma round_compat (q q' : Q) : (q == q')%Q -> round_half_even q = round_half_even q'.
Proof.
  intros H. unfold round_half_even. cbv zeta.
  assert (Hf : Qfloor q = Qfloor q').
  { apply Z.le_antisymm; apply Qfloor_resp_le; lra. }
  rewrite Hf.
  rewrite (Qlt_bool_compat (q - inject_Z (Qfloor q')) (q' - inject_Z (Qfloor q')) (1 # 2) (1 # 2))
    by lra.
  rewrite (Qlt_bool_compat (1 # 2) (1 # 2) (q - inject_Z (Qfloor q')) (q' - inject_Z (Qfloor q')))
    by lra.
  reflexivity.
Qed.

Lemma round_shift_even (q : Q) (n : Z) :
  Z.even n = true -> round_half_even (q + inject_Z n)%Q = round_half_even q + n.
Proof.
  intros Hn. unfold round_half_even. cbv zeta.
  assert (Hf : Qfloor (q + inject_Z n) = Qfloor q + n).
  { pose proof (Qfloor_le q). pose proof (Qlt_floor q) as Hlt.
    rewrite inject_Z_plus in Hlt.
    apply Qfloor_unique; rewrite ?inject_Z_plus; change (inject_Z 1) with 1%Q in *; lra. }
  rewrite Hf.
  rewrite (Qlt_bool_compat (q + inject_Z n - inject_Z (Qfloor q + n)) (q - inject_Z (Qfloor q))
             (1 # 2) (1 # 2)) by (rewrite ?inject_Z_plus; lra).
  rewrite (Qlt_bool_compat (1 # 2) (1 # 2) (q + inject_Z n - inject_Z (Qfloor q + n))
             (q - inject_Z (Qfloor q))) by (rewrite ?inject_Z_plus; lra).
  rewrite Z.even_add, Hn.
  destruct (Qlt_bool _ (1 # 2)); [reflexivity|]. destruct (Qlt_bool (1 # 2) _); [lia|].
  destruct (Z.even (Qfloor q)); cbn; lia.
Qed.

(** The eccentricity field of a rendering below 10: its seven decimals. *)
Lemma ecc_str_digits (e : Q) :
  (0 <= e)%Q ->
  round_half_even (Qabs e * inject_Z (10 ^ Z.of_nat 7))%Q / 10 ^ Z.of_nat 7 < 10 ->
  ecc_str e = rjust "0" 7 (str_of_N (Z.to_N
                (round_half_even (Qabs e * inject_Z (10 ^ Z.of_nat 7))%Q mod 10 ^ Z.of_nat 7))).
Proof.
  intros He Hip. unfold ecc_str, format_fixed.
  assert (Hneg : Qlt_bool e 0 = false).
  { unfold Qlt_bool. apply negb_false_iff, Qle_bool_iff. exact He. }
  rewrite Hneg. cbv zeta.
  pose proof (round_scaled_nonneg e 7) as H0.
  remember (round_half_even (Qabs e * inject_Z (10 ^ Z.of_nat 7))%Q) as m.
  assert (Hd : 0 <= m / 10 ^ Z.of_nat 7) by (apply Z.div_pos; [lia | cbn; lia]).
  rewrite (str_of_N_digit (Z.to_N (m / 10 ^ Z.of_nat 7))) by lia.
  set (Y := rjust "0"%char 7 (str_of_N (Z.to_N (m mod 10 ^ Z.of_nat 7)))).
  unfold rjust at 1. cbn [String.append String.length repeat_char Nat.sub].
  unfold str_drop. cbn [String.length String.append Nat.sub substring].
  rewrite Nat.sub_0_r. apply substring_all.
Qed.
(** ** Rounding error and the ends of the encoder's range *)

Lemma Qle_inject (a b : Z) : a <= b -> (inject_Z a <= inject_Z b)%Q.
Proof. intros H. rewrite <- Zle_Qle. exact H. Qed.

Lemma Qabs_opp_eq (x : Q) : Qabs (- x) = Qabs x.
Proof. destruct x as [n d]. unfold Qabs, Qopp. cbn [Qnum Qden]. now rewrite Z.abs_opp. Qed.


Lemma round_small_zero (q : Q) : (0 <= q <= 1 # 2)%Q -> round_half_even q = 0.
Proof.
  intros [H0 H1].
  assert (Hf : Qfloor q = 0).
  { apply Qfloor_unique; [exact H0|]. change (inject_Z (0 + 1)) with 1%Q. lra. }
  unfold round_half_even. cbv zeta. rewrite Hf.
  destruct (Qlt_bool _ (1 # 2)); [reflexivity|].
  destruct (Qlt_bool (1 # 2) _) eqn:E; [|reflexivity].
  apply Qlt_bool_iff in E. change (inject_Z 0) with 0%Q in E. lra.
Qed.

Lemma inject_pow10_le9 (k : nat) : (k <= 9)%nat -> (inject_Z (10 ^ Z.of_nat k) <= 1000000000)%Q.
Proof.
  intros Hk. change 1000000000%Q with (inject_Z (10 ^ 9)). apply Qle_inject.
  apply Z.pow_le_mono_r; lia.
Qed.

(** Below [10^-9] the encoder scales up nine times and stops at exponent -9. *)
Lemma lz_scientific_tiny (x : Q) :
  (0 <= x)%Q -> (x * 1000000000 < 1)%Q ->
  exists v, lz_scientific x = (v, -9) /\ (v == x * 1000000000)%Q.
Proof.
  intros Hx Hs.
  destruct (lz_scientific_spec x Hx) as (v & e0 & k & Hsc & Hk & Hpow & Hv0 & Hv1 & _).
  pose proof (inject_pow10_le9 k Hk) as Hp9. pose proof (inject_pow10_pos k) as Hp1.
  assert (Hxk : (x * inject_Z (10 ^ Z.of_nat k) <= x * 1000000000)%Q).
  { apply Qmult_le_compat_nonneg; split; lra. }
  destruct Hpow as [[-> Hp]|[-> [Hp _]]].
  - exfalso. destruct Hv1 as [Hv1|Hk9]; [|lia].
    assert (Hvk : (v * 1 <= v * inject_Z (10 ^ Z.of_nat k))%Q)
      by (apply Qmult_le_compat_nonneg; split; lra).
    lra.
  - destruct Hv1 as [Hv1|Hk9]; [lra|].
    assert (k = 9%nat) by lia. subst k. exists v. split; [rewrite Hsc; f_equal; lia|].
    rewrite <- Hp. reflexivity.
Qed.

(** From [10^9] on the encoder scales down nine times and stops at exponent 9. *)
Lemma lz_scientific_top (x : Q) :
  (1000000000 <= x)%Q ->
  exists v, lz_scientific x = (v, 9) /\ (v * 1000000000 == x)%Q.
Proof.
  intros Hx.
  destruct (lz_scientific_spec x ltac:(lra)) as (v & e0 & k & Hsc & Hk & Hpow & Hv0 & _ & Hv10).
  destruct (Z.eq_dec e0 9) as [->|Hne].
  - exists v. split; [exact Hsc|]. exact (lz_top_exponent v x k Hk Hpow).
  - exfalso. destruct Hv10 as [Hv10|]; [|contradiction].
    destruct Hpow as [[-> Hp]|[_ [_ Hx1]]]; [|lra].
    assert (Hk8 : (inject_Z (10 ^ Z.of_nat k) <= 100000000)%Q).
    { change 100000000%Q with (inject_Z (10 ^ 8)). apply Qle_inject.
      apply Z.pow_le_mono_r; lia. }
    assert (Hm : (v * inject_Z (10 ^ Z.of_nat k) <= v * 100000000)%Q).
    { pose proof (inject_pow10_pos k). apply Qmult_le_compat_nonneg; split; lra. }
    lra.
Qed.

(** ** Loops whose bodies raise one exception only *)

Lemma range_In_inv (n x : Z) : In x (range n) -> 0 <= x < n.
Proof.
  unfold range. intros Hin. apply in_map_iff in Hin as (k & <- & Hk).
  apply in_seq in Hk. lia.
Qed.

Lemma mapM_all_ok {A B : Type} (g : A -> Res B) (xs : list A) :
  (forall x, In x xs -> exists y, g x = Ok y) -> exists ys, mapM g xs = Ok ys.
Proof.
  induction xs as [|x xs IH]; intros H; [exists []; reflexivity|].
  destruct (H x (or_introl eq_refl)) as [y Hy].
  destruct IH as [ys Hys]; [intros x' Hx'; apply H; right; exact Hx'|].
  exists (y :: ys). cbn [mapM]. rewrite Hy. cbn [bind]. rewrite Hys. reflexivity.
Qed.

Lemma mapM_ok_or_raise {A B : Type} (g : A -> Res B) (xs : list A) (e : PyExc) :
  (forall x, In x xs -> (exists y, g x = Ok y) \/ g x = Raise e) ->
  (exists ys, mapM g xs = Ok ys) \/ mapM g xs = Raise e.
Proof.
  induction xs as [|x xs IH]; intros H; [left; exists []; reflexivity|].
  cbn [mapM]. destruct (H x (or_introl eq_refl)) as [[y Hy]|Hy]; rewrite Hy; cbn [bind];
    [|right; reflexivity].
  destruct IH as [[ys Hys]|Hys]; [intros x' Hx'; apply H; right; exact Hx'| |];
    rewrite Hys; cbn [bind]; [left; eexists; reflexivity | right; reflexivity].
Qed.

Lemma mapM_raise_only {A B : Type} (g : A -> Res B) (xs : list A) (e : PyExc) :
  (forall x, In x xs -> (exists y, g x = Ok y) \/ g x = Raise e) ->
  (exists x, In x xs /\ g x = Raise e) -> mapM g xs = Raise e.
Proof.
  induction xs as [|x xs IH]; intros Hall [x0 [Hin Hx0]]; [destruct Hin|].
  cbn [mapM]. destruct Hin as [<-|Hin].
  - rewrite Hx0. reflexivity.
  - destruct (Hall x (or_introl eq_refl)) as [[y Hy]|Hy]; rewrite Hy; cbn [bind];
      [|reflexivity].
    rewrite IH; [reflexivity | intros x' Hx'; apply Hall; right; exact Hx' |].
    exists x0. split; assumption.
Qed.

(** For a start time of its year, [forge_tle_single] either returns a record
    or raises the line-2 length error. *)
Lemma forge_ok_or_line2 ucd mm sat_name alt ecc inc raan argp anom t :
  valid_start_time t ->
  (exists out, forge_tle_single ucd mm sat_name alt ecc inc raan argp anom t = Ok out) \/
  forge_tle_single ucd mm sat_name alt ecc inc raan argp anom t = Raise line2_error.
Proof.
  intros Hv. pose proof (line1_length_valid t Hv) as H1.
  destruct (Nat.eq_dec (String.length (tle_line2 inc raan ecc argp anom (mm alt))) 68)
    as [H2|H2].
  - left. eexists. apply forge_tle_single_ok; assumption.
  - right. apply forge_line2_error; assumption.
Qed.

(** Line 2 of the belt record of plane [i] and satellite [j]: the mean
    anomaly [j * (360 / n)] always fits, the RAAN [i * 10] fits up to plane
    index 99. *)
Lemma belt_record_line2 (inc ecc argp m : Q) (n i j : Z) :
  1 <= n -> 0 <= j < n -> 0 <= i ->
  String.length (tle_line2 inc (inject_Z i * 10) ecc argp (inject_Z j * (360 / inject_Z n)) m)
    = 68%nat <->
  (i <= 99 /\
   (-(9999995 # 100000) < inc < 99999995 # 100000)%Q /\
   (-(9999995 # 100000) < argp < 99999995 # 100000)%Q /\
   (0 <= ecc < 999999995 # 100000000)%Q /\
   (-(9999999995 # 1000000000) < m < 99999999995 # 1000000000)%Q).
Proof.
  intros Hn Hj Hi. rewrite line2_fits.
  assert (Ha : (0 <= inject_Z j * (360 / inject_Z n) < 360)%Q).
  { pose proof (Qle_inject 0 j ltac:(lia)) as Hj0.
    pose proof (Qle_inject (j + 1) n ltac:(lia)) as Hjn. rewrite inject_Z_plus in Hjn.
    change (inject_Z 1) with 1%Q in Hjn. change (inject_Z 0) with 0%Q in Hj0.
    assert (Hn0 : (0 < inject_Z n)%Q) by lra.
    setoid_replace (inject_Z j * (360 / inject_Z n))%Q with (360 * inject_Z j / inject_Z n)%Q
      by (field; intros Hz; lra).
    split; [apply Qle_shift_div_l | apply Qlt_shift_div_r]; lra. }
  assert (Ha' : (-(9999995 # 100000) < inject_Z j * (360 / inject_Z n) < 99999995 # 100000)%Q)
    by lra.
  assert (Hr : (-(9999995 # 100000) < inject_Z i * 10 < 99999995 # 100000)%Q <-> i <= 99).
  { pose proof (Qle_inject 0 i Hi) as Hi0. change (inject_Z 0) with 0%Q in Hi0. split.
    - intros [_ Hlt]. destruct (Z.le_gt_cases i 99) as [|Hgt]; [assumption|].
      pose proof (Qle_inject 100 i ltac:(lia)) as H100.
      change (inject_Z 100) with 100%Q in H100. lra.
    - intros Hle. pose proof (Qle_inject i 99 Hle) as H99.
      change (inject_Z 99) with 99%Q in H99. split; lra. }
  rewrite <- Hr. tauto.
Qed.

(** ** Decimal renderings read back *)

(** The characters of [str(n)] are decimal digits, and reading them back
    from the left gives [n]. *)
Lemma lit_str_of_N_fuel (f : nat) (n : N) :
  (n < 10 ^ N.of_nat f)%N ->
  fold_left (fun acc c => 10 * acc + (c - 48))%N (lit (str_of_N_fuel f n)) 0%N = n /\
  Forall (fun c => 48 <= c < 58)%N (lit (str_of_N_fuel f n)).
Proof.
  revert n. induction f as [|f IH]; intros n Hn.
  - cbn in Hn. split; [cbn; lia | constructor].
  - cbn [str_of_N_fuel]. destruct (N.ltb_spec n 10) as [Hlt|Hge]; cbv iota.
    + rewrite lit_digit by exact Hlt. split; [cbn [fold_left]; lia | constructor; [lia | constructor]].
    + destruct (div10_facts n) as [Hd Hm]. rewrite pow10_succ in Hn.
      rewrite lit_app, lit_digit by exact Hm.
      set (q := (n / 10)%N) in *. set (r := (n mod 10)%N) in *. clearbody q r.
      assert (Hq : (q < 10 ^ N.of_nat f)%N) by lia.
      destruct (IH q Hq) as [IHv IHd]. split.
      * rewrite fold_left_app, IHv. cbn [fold_left]. lia.
      * apply Forall_app. split; [exact IHd | constructor; [lia | constructor]].
Qed.

Lemma lit_str_of_N (n : N) :
  fold_left (fun acc c => 10 * acc + (c - 48))%N (lit (str_of_N n)) 0%N = n /\
  Forall (fun c => 48 <= c < 58)%N (lit (str_of_N n)).
Proof.
  apply lit_str_of_N_fuel. rewrite pow10_succ. pose proof (size_nat_bound n). lia.
Qed.

Lemma format_int_nonneg (k : Z) : 0 <= k -> format_int false 0 k = str_of_N (Z.to_N k).
Proof.
  intros Hk. unfold format_int, rjust. destruct (Z.ltb_spec k 0); [lia|].
  rewrite Z.abs_eq by lia. reflexivity.
Qed.

Lemma app_sep_inj (xs ys xs' ys' : list N) (c : N) :
  ~ In c xs -> ~ In c xs' -> (xs ++ c :: ys = xs' ++ c :: ys')%list -> xs = xs' /\ ys = ys'.
Proof.
  revert xs'. induction xs as [|x xs IH]; intros xs' H1 H2 H;
    destruct xs' as [|x' xs']; cbn [app] in H.
  - injection H as ->. split; reflexivity.
  - injection H as E _. exfalso. apply H2. left. symmetry. exact E.
  - injection H as E _. exfalso. apply H1. left. exact E.
  - injection H as -> H. destruct (IH xs') as [-> ->].
    + intros Hin. apply H1. right. exact Hin.
    + intros Hin. apply H2. right. exact Hin.
    + exact H.
    + split; reflexivity.
Qed.


(** * Claims *)

(** ** C1 *)

(** C1: whenever [forge_tle_single] returns normally, its result is the name,
    a newline, line 1, a newline and line 2; lines 1 and 2 have 69
    characters each, and the last character of each is the decimal digit of
    [_compute_tle_checksum] over its first 68 characters. *)
Theorem forge_tle_single_block ucd mm sat_name altitude_m eccentricity inclination_deg
    raan_deg argp_deg anomaly_deg start_time out :
  forge_tle_single ucd mm sat_name altitude_m eccentricity inclination_deg raan_deg
    argp_deg anomaly_deg start_time = Ok out ->
  exists line1 line2 c1 c2,
    out = (sat_name ++ [10%N] ++ line1 ++ [10%N] ++ line2)%list /\
    length line1 = 69%nat /\ length line2 = 69%nat /\
    _compute_tle_checksum ucd (firstn 68 line1) = Ok c1 /\ (c1 < 10)%nat /\
    skipn 68 line1 = [(48 + N.of_nat c1)%N] /\
    _compute_tle_checksum ucd (firstn 68 line2) = Ok c2 /\ (c2 < 10)%nat /\
    skipn 68 line2 = [(48 + N.of_nat c2)%N].
Proof.
  unfold forge_tle_single. intros Hout.
  set (l1 := tle_line1 start_time) in Hout.
  set (l2 := tle_line2 inclination_deg raan_deg eccentricity argp_deg anomaly_deg
               (mm altitude_m)) in Hout.
  destruct (Nat.eqb_spec (String.length l1) 68) as [H1|H1]; cbn [negb] in Hout;
    [|discriminate Hout].
  destruct (Nat.eqb_spec (String.length l2) 68) as [H2|H2]; cbn [negb] in Hout;
    [|discriminate Hout].
  destruct (_compute_tle_checksum ucd (lit l1)) as [c1|e] eqn:Hc1; cbn [bind] in Hout;
    [|discriminate Hout].
  destruct (_compute_tle_checksum ucd (lit l2)) as [c2|e] eqn:Hc2; cbn [bind] in Hout;
    [|discriminate Hout].
  injection Hout as <-.
  destruct (lit_line_with_checksum ucd l1 c1 H1 Hc1) as (La & Fa & Sa).
  destruct (lit_line_with_checksum ucd l2 c2 H2 Hc2) as (Lb & Fb & Sb).
  exists (lit (l1 ++ str_of_N (N.of_nat c1))), (lit (l2 ++ str_of_N (N.of_nat c2))), c1, c2.
  rewrite Fa, Fb. repeat split; auto; eapply checksum_lt; eauto.
Qed.

Lemma forge_tle_single_block_witness :
  let r := forge_tle_single ucd_rest_none mean_motion_rev_day_ref (lit "Test") 400000 0 90 0 0 0
             epoch_2025 in
  let out := match r with Ok o => o | Raise _ => [] end in
  r = Ok out /\
  exists line1 line2 c1 c2,
    out = (lit "Test" ++ [10%N] ++ line1 ++ [10%N] ++ line2)%list /\
    length line1 = 69%nat /\ length line2 = 69%nat /\
    _compute_tle_checksum ucd_rest_none (firstn 68 line1) = Ok c1 /\ (c1 < 10)%nat /\
    skipn 68 line1 = [(48 + N.of_nat c1)%N] /\
    _compute_tle_checksum ucd_rest_none (firstn 68 line2) = Ok c2 /\ (c2 < 10)%nat /\
    skipn 68 line2 = [(48 + N.of_nat c2)%N].
Proof.
  intros r out.
  assert (E : r = Ok out) by (vm_compute; reflexivity).
  split; [exact E|].
  apply (forge_tle_single_block ucd_rest_none mean_motion_rev_day_ref (lit "Test") 400000 0 90
           0 0 0 epoch_2025 out E).
Defined.

(** ** C2 *)

(** C2 (code bug): on the one-character string ["²"] (U+00B2, SUPERSCRIPT
    TWO) the specified checksum is 0, since the character is not one of the
    decimal digits ['0'..'9'] nor ['-']; but [ch.isdigit()] holds for it and
    [int(ch)] then raises [ValueError], whatever the rest of the Unicode
    database says. *)
Theorem compute_tle_checksum_superscript (ucd : N -> DigitClass) :
  checksum_spec [178%N] = 0%nat /\
  isdigit ucd 178%N = true /\
  _compute_tle_checksum ucd [178%N] =
    Raise (ValueError "invalid literal for int() with base 10").
Proof. split; [reflexivity|]. split; reflexivity. Qed.

(** ** C3 *)




(** ** C4 *)

(** C4 (amended): [9.99996e-3] is encoded as [" 10000-2"]; for every
    non-negligible value, a rounded mantissa that reaches [100000] is divided
    by 10 and the exponent raised by one and clamped at 9; the mantissa field
    has exactly 5 characters whenever [|value| < 10^10], and 6 or more
    whenever [|value| >= 10^11]. *)
Theorem format_leading_zero_carry (value : Q) :
  ~ (Qabs value < 1 # Pos.pow 10 99)%Q ->
  format_leading_zero (999996 # 100000000) = " 10000-2" /\
  exists (v : Q) (e0 m e : Z),
    lz_scientific (Qabs value) = (v, e0) /\ lz_round v e0 = (m, e) /\
    ((round_half_even (v * 10000)%Q < 100000 /\ m = round_half_even (v * 10000)%Q /\
      e = e0) \/
     (100000 <= round_half_even (v * 10000)%Q /\ m = round_half_even (v * 10000)%Q / 10 /\
      e = Z.min (e0 + 1) 9)) /\
    ((Qabs value < 10000000000)%Q -> String.length (format_int true 5 m) = 5%nat) /\
    ((100000000000 <= Qabs value)%Q -> (6 <= String.length (format_int true 5 m))%nat).
Proof.
  intros Hn. split; [vm_compute; reflexivity|].
  assert (Hx : (0 <= Qabs value)%Q) by apply Qabs_nonneg.
  destruct (lz_scientific_spec _ Hx) as (v & e0 & k & Hs & Hk & Hpow & Hv0 & Hv1 & Hv10).
  assert (He0 : -9 <= e0 <= 9) by (destruct Hpow as [[-> _]|[-> _]]; lia).
  destruct (lz_round_spec v e0 Hv0 He0) as (m & e & Hr & Hm0 & He & Hiff & _ & _).
  pose proof (lz_mantissa_iff (Qabs value) v e0 k Hk Hpow Hv0 Hv10) as Hbound.
  pose proof (str_of_N_length (Z.to_N m) 5 ltac:(lia)) as Hl.
  change (10 ^ N.of_nat 5)%N with 100000%N in Hl.
  exists v, e0, m, e. split; [exact Hs|]. split; [exact Hr|].
  split; [exact (lz_round_cases v e0 m e Hr)|].
  rewrite (format_int_zero_pad 5 m Hm0), slen_rjust. split.
  - intros Hsmall. assert (Hm : m < 100000) by (apply Hiff, Hbound; lra).
    assert (Hle : (String.length (str_of_N (Z.to_N m)) <= 5)%nat) by (apply Hl; lia).
    lia.
  - intros Hbig. assert (Hm : ~ m < 100000).
    { intros Hm. apply Hiff, Hbound in Hm. lra. }
    assert (Hgt : ~ (String.length (str_of_N (Z.to_N m)) <= 5)%nat).
    { intros Hle. apply Hl in Hle. lia. }
    lia.
Qed.

Lemma format_leading_zero_carry_witness :
  ~ (Qabs (999996 # 100000000) < 1 # Pos.pow 10 99)%Q /\
  format_leading_zero (999996 # 100000000) = " 10000-2".
Proof.
  assert (H : ~ (Qabs (999996 # 100000000) < 1 # Pos.pow 10 99)%Q).
  { rewrite <- Qlt_bool_iff. vm_compute. discriminate. }
  split; [exact H|].
  apply (proj1 (format_leading_zero_carry (999996 # 100000000) H)).
Defined.

(** C4 does not hold for [-1e11]: the rounded mantissa [1000000] is carried
    once to [100000], which still has six digits. *)
Lemma format_leading_zero_6_digits :
  format_leading_zero (-100000000000) = "-100000+9".
Proof. vm_compute; reflexivity. Qed.

(** ** C5 *)




(** ** C6 *)

(** C6: when line 1 or line 2 does not have 68 characters before its
    checksum, [forge_tle_single] raises the length error of that line (it
    returns no record), and a record of [forge_tle_belt] that raises makes
    the whole belt raise: no partial list is returned. *)
Theorem forge_line_length_aborts (ucd : N -> DigitClass) (mm : Q -> Q) :
  (forall sat_name altitude_m eccentricity inclination_deg raan_deg argp_deg anomaly_deg t,
     (String.length (tle_line1 t) <> 68
      \/ String.length (tle_line2 inclination_deg raan_deg eccentricity argp_deg anomaly_deg
                          (mm altitude_m)) <> 68)%nat ->
     forge_tle_single ucd mm sat_name altitude_m eccentricity inclination_deg raan_deg
       argp_deg anomaly_deg t = Raise line1_error
     \/ forge_tle_single ucd mm sat_name altitude_m eccentricity inclination_deg raan_deg
          argp_deg anomaly_deg t = Raise line2_error) /\
  (forall n p altitude_km eccentricity inclination_deg argp_deg t plane_idx satellite_idx e,
     0 <= plane_idx < p -> 0 <= satellite_idx < n ->
     forge_tle_single ucd mm (belt_sat_name plane_idx satellite_idx) (altitude_km * 1000)%Q
       eccentricity inclination_deg (inject_Z plane_idx * 10)%Q argp_deg
       (inject_Z satellite_idx * (360 / inject_Z n))%Q t = Raise e ->
     exists e', forge_tle_belt ucd mm n p altitude_km eccentricity inclination_deg argp_deg t
                = Raise e').
Proof.
  split.
  - intros. now apply forge_line_error.
  - intros. eapply forge_tle_belt_raise; eauto.
Qed.

Lemma forge_line_length_aborts_witness :
  (forge_tle_single ucd_rest_none mean_motion_rev_day_ref (lit "Test") 400000 0 90 1000 0 0
     epoch_2025 = Raise line1_error
   \/ forge_tle_single ucd_rest_none mean_motion_rev_day_ref (lit "Test") 400000 0 90 1000 0 0
        epoch_2025 = Raise line2_error) /\
  (exists e', forge_tle_belt ucd_rest_none mean_motion_rev_day_ref 1 101 1200 0 (879 # 10) 0
                epoch_2025 = Raise e').
Proof.
  destruct (forge_line_length_aborts ucd_rest_none mean_motion_rev_day_ref) as [H1 H2].
  split.
  - apply H1. right. vm_compute. discriminate.
  - apply (H2 1 101 1200%Q 0%Q (879 # 10) 0%Q epoch_2025 100 0 line2_error); [lia | lia |].
    vm_compute. reflexivity.
Defined.

(** ** C7 *)

(** C7 (code bug): the eccentricity [(2^25 - 1) / 2^25 = 0.9999999701976776]
    (a double in [[0, 1)]) renders with seven decimals as ["1.0000000"], so
    the field keeps ["0000000"] after dropping two characters, the field of
    eccentricity 0; the digits below the rounding boundary are the seven
    fractional ones ([ecc_str_fraction]). *)
Theorem ecc_str_near_one :
  (0 <= 33554431 # 33554432 < 1)%Q /\
  format_fixed SignMinus false 0 7 (33554431 # 33554432) = "1.0000000" /\
  ecc_str (33554431 # 33554432) = "0000000" /\
  ecc_str 0 = "0000000".
Proof.
  split; [split; [apply Qle_bool_iff | apply Qlt_bool_iff]; reflexivity|].
  split; [vm_compute; reflexivity|]. split; vm_compute; reflexivity.
Qed.

(** ** C9 *)

(** C9: with [num_sats_per_plane] 0, [forge_tle_belt] raises
    [ZeroDivisionError] for every [plane_count] (also 0), before forging any
    record. *)
Theorem forge_tle_belt_zero_sats (ucd : N -> DigitClass) (mm : Q -> Q)
    (plane_count : Z) (altitude_km eccentricity inclination_deg argp_deg : Q) (t : Time) :
  forge_tle_belt ucd mm 0 plane_count altitude_km eccentricity inclination_deg argp_deg t
  = Raise ZeroDivisionError.
Proof. reflexivity. Qed.

(** ** C10 *)

(** C10: for a valid start time, when the 8.4f rendering of the inclination,
    the RAAN, the argument of perigee or the mean anomaly is longer than 8
    characters, [forge_tle_single] raises the line-2 length error; this is
    so for every angle >= 1000.0 or <= -100.0. *)
Theorem forge_wide_angle_raises (ucd : N -> DigitClass) (mm : Q -> Q) :
  (forall sat_name altitude_m eccentricity inclination_deg raan_deg argp_deg anomaly_deg t,
     valid_start_time t ->
     ((8 < String.length (format_float 8 4 inclination_deg))
      \/ (8 < String.length (format_float 8 4 raan_deg))
      \/ (8 < String.length (format_float 8 4 argp_deg))
      \/ (8 < String.length (format_float 8 4 anomaly_deg)))%nat ->
     forge_tle_single ucd mm sat_name altitude_m eccentricity inclination_deg raan_deg
       argp_deg anomaly_deg t = Raise line2_error) /\
  (forall angle : Q, (1000 <= angle \/ angle <= -100)%Q ->
     (8 < String.length (format_float 8 4 angle))%nat).
Proof.
  split.
  - intros sat_name alt ecc inc raan argp anom t Ht Hw.
    apply forge_line2_error.
    + now apply line1_length_valid.
    + now apply line2_wide_field.
  - exact format_float_wide.
Qed.

Lemma forge_wide_angle_raises_witness :
  forge_tle_single ucd_rest_none mean_motion_rev_day_ref (lit "Test") 400000 0 90 0 0
    (-100) epoch_2025 = Raise line2_error /\
  (8 < String.length (format_float 8 4 1000))%nat.
Proof.
  destruct (forge_wide_angle_raises ucd_rest_none mean_motion_rev_day_ref) as [H1 H2].
  split.
  - apply H1.
    + unfold valid_start_time; cbn; lra.
    + right; right; right. apply H2. right. lra.
  - apply H2. left. lra.
Defined.

(** * Further properties of the code *)

Ltac qdec := first [apply Qlt_bool_iff | apply Qle_bool_iff]; vm_compute; reflexivity.

(** [forge_tle_single] raises only its two length errors, whatever the
    Unicode tables say: on the ASCII lines it builds, [_compute_tle_checksum]
    never raises and is the plain digit sum of the specification. *)
Theorem forge_tle_single_outcome ucd mm sat_name alt ecc inc raan argp anom t :
  forge_tle_single ucd mm sat_name alt ecc inc raan argp anom t =
  (let line1 := tle_line1 t in
   let line2 := tle_line2 inc raan ecc argp anom (mm alt) in
   if negb (String.length line1 =? 68)%nat then Raise line1_error
   else if negb (String.length line2 =? 68)%nat then Raise line2_error
   else Ok (sat_name ++ [10%N]
            ++ lit (line1 ++ str_of_N (N.of_nat (checksum_spec (lit line1))))
            ++ [10%N]
            ++ lit (line2 ++ str_of_N (N.of_nat (checksum_spec (lit line2)))))%list).
Proof.
  cbv zeta.
  destruct (Nat.eqb_spec (String.length (tle_line1 t)) 68) as [H1|H1]; cbn [negb];
    [|apply forge_line1_error; exact H1].
  destruct (Nat.eqb_spec (String.length (tle_line2 inc raan ecc argp anom (mm alt))) 68)
    as [H2|H2]; cbn [negb]; [|apply forge_line2_error; assumption].
  apply forge_tle_single_ok; assumption.
Qed.

(** For a start time of the forger's calendar year, [forge_tle_single]
    returns a record exactly when the four angles lie in
    (-99.99995, 999.99995), the eccentricity in [0, 9.99999995) and the
    mean motion in (-9.999999995, 99.999999995); otherwise it raises the
    line-2 length error. *)
Theorem forge_tle_single_accepts ucd mm sat_name alt ecc inc raan argp anom t :
  valid_start_time t ->
  let fields_fit :=
    (-(9999995 # 100000) < inc < 99999995 # 100000)%Q /\
    (-(9999995 # 100000) < raan < 99999995 # 100000)%Q /\
    (-(9999995 # 100000) < argp < 99999995 # 100000)%Q /\
    (-(9999995 # 100000) < anom < 99999995 # 100000)%Q /\
    (0 <= ecc < 999999995 # 100000000)%Q /\
    (-(9999999995 # 1000000000) < mm alt < 99999999995 # 1000000000)%Q in
  (fields_fit -> exists out,
     forge_tle_single ucd mm sat_name alt ecc inc raan argp anom t = Ok out) /\
  (~ fields_fit ->
     forge_tle_single ucd mm sat_name alt ecc inc raan argp anom t = Raise line2_error).
Proof.
  intros Hv fields_fit. pose proof (line1_length_valid t Hv) as H1.
  unfold fields_fit. rewrite <- line2_fits. split.
  - intros H2. eexists. apply forge_tle_single_ok; assumption.
  - intros H2. apply forge_line2_error; assumption.
Qed.

Lemma forge_tle_single_accepts_witness :
  valid_start_time epoch_2025 /\
  exists out, forge_tle_single ucd_rest_none mean_motion_rev_day_ref (lit "Test") 400000 0 90
                0 0 0 epoch_2025 = Ok out.
Proof.
  assert (Hv : valid_start_time epoch_2025) by (split; qdec).
  split; [exact Hv|].
  apply (proj1 (forge_tle_single_accepts ucd_rest_none mean_motion_rev_day_ref (lit "Test")
                  400000 0 90 0 0 0 epoch_2025 Hv)).
  repeat split; qdec.
Defined.


(** [_compute_tle_checksum] never raises on US-ASCII input, and there it is
    the sum of the decimal digits plus one per ['-'], modulo 10. *)
Theorem compute_tle_checksum_ascii_line (ucd : N -> DigitClass) (line : pystr) :
  Forall (fun ch => (ch < 128)%N) line ->
  _compute_tle_checksum ucd line = Ok (checksum_spec line).
Proof. intros Hl. exact (compute_tle_checksum_ascii ucd line Hl). Qed.

Lemma compute_tle_checksum_ascii_line_witness :
  Forall (fun ch => (ch < 128)%N) (lit "1 25-A9") /\
  _compute_tle_checksum ucd_rest_none (lit "1 25-A9") = Ok 8%nat.
Proof.
  assert (Hl : Forall (fun ch => (ch < 128)%N) (lit "1 25-A9"))
    by (cbn; repeat constructor).
  split; [exact Hl|].
  rewrite (compute_tle_checksum_ascii_line ucd_rest_none (lit "1 25-A9") Hl).
  reflexivity.
Defined.

(** The checksum of a concatenation: it raises when the checksum of either
    part raises, and is otherwise the sum of the two parts' checksums
    modulo 10. *)
Theorem compute_tle_checksum_concat (ucd : N -> DigitClass) (l1 l2 : pystr) :
  _compute_tle_checksum ucd (l1 ++ l2)%list =
  (c1 <- _compute_tle_checksum ucd l1 ;
   c2 <- _compute_tle_checksum ucd l2 ;
   Ok ((c1 + c2) mod 10)%nat).
Proof.
  unfold _compute_tle_checksum. rewrite checksum_sum_app.
  destruct (checksum_sum ucd l1 0) as [s1|e]; cbn [bind]; [|reflexivity].
  rewrite (checksum_sum_acc ucd l2 s1).
  destruct (checksum_sum ucd l2 0) as [s2|e]; cbn [bind]; [|reflexivity].
  f_equal. apply Nat.Div0.add_mod.
Qed.

(** The eccentricity field drops the integer part: for [0 <= x] and a
    natural number [n] with [x + n] below [9.99999995] (beyond which line 2
    overflows), [x + n] gets the field of [x]; e.g. [1.5] is written as
    [0.5]. *)
Theorem ecc_str_drops_integer_part (x : Q) (n : Z) :
  (0 <= x)%Q -> 0 <= n -> (x + inject_Z n < 999999995 # 100000000)%Q ->
  ecc_str (x + inject_Z n) = ecc_str x.
Proof.
  intros Hx Hn Hb.
  pose proof (Qle_inject 0 n Hn) as Hn'. change (inject_Z 0) with 0%Q in Hn'.
  assert (Hdig : forall e, (0 <= e)%Q -> (e < 999999995 # 100000000)%Q ->
            round_half_even (Qabs e * inject_Z (10 ^ Z.of_nat 7))%Q / 10 ^ Z.of_nat 7 < 10).
  { intros e He0 He1. rewrite Qabs_nonneg_eq by exact He0.
    assert (round_half_even (e * inject_Z (10 ^ Z.of_nat 7))%Q <= 99999999).
    { apply round_lt_half. change (inject_Z (10 ^ Z.of_nat 7)) with 10000000%Q.
      change (inject_Z 99999999) with 99999999%Q. lra. }
    change (10 ^ Z.of_nat 7) with 10000000 in *. apply Z.div_lt_upper_bound; lia. }
  rewrite (ecc_str_digits (x + inject_Z n)) by first [lra | apply Hdig; lra].
  rewrite (ecc_str_digits x) by first [lra | apply Hdig; lra].
  rewrite !Qabs_nonneg_eq by lra.
  rewrite (round_compat ((x + inject_Z n) * inject_Z (10 ^ Z.of_nat 7))%Q
             (x * inject_Z (10 ^ Z.of_nat 7) + inject_Z (n * 10 ^ Z.of_nat 7))%Q)
    by (rewrite inject_Z_mult; ring).
  rewrite round_shift_even by (rewrite Z.even_mul; apply orb_true_iff; right; reflexivity).
  rewrite Z_mod_plus_full. reflexivity.
Qed.

Lemma ecc_str_drops_integer_part_witness :
  ((0 <= 1 # 2)%Q /\ 0 <= 1 /\ ((1 # 2) + inject_Z 1 < 999999995 # 100000000)%Q) /\
  ecc_str ((1 # 2) + inject_Z 1) = ecc_str (1 # 2) /\ ecc_str (1 # 2) = "5000000".
Proof.
  assert (H1 : (0 <= 1 # 2)%Q) by qdec.
  assert (H2 : ((1 # 2) + inject_Z 1 < 999999995 # 100000000)%Q) by qdec.
  split; [split; [exact H1 | split; [lia | exact H2]]|].
  split; [exact (ecc_str_drops_integer_part (1 # 2) 1 H1 ltac:(lia) H2)|].
  vm_compute. reflexivity.
Defined.

(** Negating a positive value changes only the first character of its
    token, from [' '] to ['-'], except below [1e-99], where both signs give
    [" 00000-0"]. *)
Theorem format_leading_zero_opp (x : Q) :
  (0 < x)%Q ->
  ((x < 1 # Pos.pow 10 99)%Q ->
   format_leading_zero (- x) = " 00000-0" /\ format_leading_zero x = " 00000-0") /\
  (~ (x < 1 # Pos.pow 10 99)%Q ->
   exists s, format_leading_zero x = String " " s /\ format_leading_zero (- x) = String "-" s).
Proof.
  intros Hx. unfold format_leading_zero. rewrite Qabs_opp_eq, Qabs_nonneg_eq by lra.
  assert (Hneg : Qlt_bool (- x) 0 = true) by (apply Qlt_bool_iff; lra).
  assert (Hpos : Qlt_bool x 0 = false).
  { unfold Qlt_bool. apply negb_false_iff, Qle_bool_iff. lra. }
  split.
  - intros Hs. apply Qlt_bool_iff in Hs. rewrite Hs. split; reflexivity.
  - intros Hs. destruct (Qlt_bool x (1 # Pos.pow 10 99)) eqn:Ez;
      [apply Qlt_bool_iff in Ez; contradiction|].
    rewrite Hneg, Hpos. destruct (lz_scientific x) as [v e0].
    destruct (lz_round v e0) as [m e]. eexists. split; reflexivity.
Qed.

Lemma format_leading_zero_opp_witness :
  (0 < 12345 # 100000000)%Q /\ ~ (12345 # 100000000 < 1 # Pos.pow 10 99)%Q /\
  format_leading_zero (12345 # 100000000) = " 12345-4" /\
  exists s, format_leading_zero (12345 # 100000000) = String " " s /\
            format_leading_zero (- (12345 # 100000000)) = String "-" s.
Proof.
  assert (H1 : (0 < 12345 # 100000000)%Q) by qdec.
  assert (H2 : ~ (12345 # 100000000 < 1 # Pos.pow 10 99)%Q).
  { rewrite <- Qlt_bool_iff. vm_compute. discriminate. }
  split; [exact H1|]. split; [exact H2|]. split; [vm_compute; reflexivity|].
  exact (proj2 (format_leading_zero_opp (12345 # 100000000) H1) H2).
Defined.

(** A non-negligible value of magnitude at most [5e-14] is written with the
    mantissa ["00000"] and the exponent ["-9"]: the encoder stops scaling at
    exponent -9 and the rounded mantissa is 0. *)
Theorem format_leading_zero_underflow (value : Q) :
  ~ (Qabs value < 1 # Pos.pow 10 99)%Q -> (Qabs value <= 5 # 100000000000000)%Q ->
  format_leading_zero value = (if Qlt_bool value 0 then "-" else " ") ++ "00000-9".
Proof.
  intros Hnz Hs. pose proof (Qabs_nonneg value) as H0.
  assert (Ez : Qlt_bool (Qabs value) (1 # Pos.pow 10 99) = false).
  { destruct (Qlt_bool (Qabs value) (1 # Pos.pow 10 99)) eqn:E; [|reflexivity].
    apply Qlt_bool_iff in E. contradiction. }
  destruct (lz_scientific_tiny (Qabs value) H0 ltac:(lra)) as (v & Hsc & Hv).
  assert (Hr : lz_round v (-9) = (0, -9)).
  { unfold lz_round.
    rewrite (round_compat (v * 10000)%Q (Qabs value * 10000000000000)%Q)
      by (rewrite Hv; ring).
    rewrite round_small_zero by (split; lra). reflexivity. }
  rewrite (format_leading_zero_nonzero value v (-9) 0 (-9) Ez Hsc Hr). reflexivity.
Qed.

Lemma format_leading_zero_underflow_witness :
  ~ (Qabs (- (1 # 100000000000000)) < 1 # Pos.pow 10 99)%Q /\
  (Qabs (- (1 # 100000000000000)) <= 5 # 100000000000000)%Q /\
  format_leading_zero (- (1 # 100000000000000)) = "-00000-9".
Proof.
  assert (H1 : ~ (Qabs (- (1 # 100000000000000)) < 1 # Pos.pow 10 99)%Q).
  { rewrite <- Qlt_bool_iff. vm_compute. discriminate. }
  assert (H2 : (Qabs (- (1 # 100000000000000)) <= 5 # 100000000000000)%Q) by qdec.
  split; [exact H1|]. split; [exact H2|].
  exact (format_leading_zero_underflow (- (1 # 100000000000000)) H1 H2).
Defined.



(** Between [9.99995e9] and [10^10] the token is always ["10000+9"] after
    the sign: the rounding carry cannot raise the exponent above 9, so the
    token stands for [10^9], a tenth of the value. *)
Theorem format_leading_zero_saturates (value : Q) :
  (9999950000 <= Qabs value < 10000000000)%Q ->
  format_leading_zero value = (if Qlt_bool value 0 then "-" else " ") ++ "10000+9".
Proof.
  intros [Hlo Hhi].
  assert (Ez : Qlt_bool (Qabs value) (1 # Pos.pow 10 99) = false).
  { unfold Qlt_bool. apply negb_false_iff, Qle_bool_iff.
    apply Qle_trans with 1%Q; [apply Qle_bool_iff; reflexivity | lra]. }
  destruct (lz_scientific_top (Qabs value) ltac:(lra)) as (v & Hsc & Hv).
  assert (Hr : lz_round v 9 = (10000, 9)).
  { assert (H1 : 99999 + 1 <= round_half_even (v * 10000)%Q).
    { apply round_ge_half; [reflexivity|]. change (inject_Z 99999) with 99999%Q. lra. }
    assert (H2 : round_half_even (v * 10000)%Q <= 100000).
    { apply round_le. change (inject_Z 100000) with 100000%Q. lra. }
    unfold lz_round. replace (round_half_even (v * 10000)%Q) with 100000 by lia.
    reflexivity. }
  rewrite (format_leading_zero_nonzero value v 9 10000 9 Ez Hsc Hr). reflexivity.
Qed.

Lemma format_leading_zero_saturates_witness :
  (9999950000 <= Qabs (-9999990000) < 10000000000)%Q /\
  format_leading_zero (-9999990000) = "-10000+9".
Proof.
  assert (H : (9999950000 <= Qabs (-9999990000) < 10000000000)%Q) by (split; qdec).
  split; [exact H|]. exact (format_leading_zero_saturates (-9999990000) H).
Defined.

(** With a nonzero but negative [num_sats_per_plane], or with no planes,
    [forge_tle_belt] forges nothing and returns the empty list without
    raising. *)
Theorem forge_tle_belt_empty (ucd : N -> DigitClass) (mm : Q -> Q) n p alt ecc inc argp t :
  n <> 0 -> n < 0 \/ p <= 0 ->
  forge_tle_belt ucd mm n p alt ecc inc argp t = Ok [].
Proof.
  intros Hn Hnp. rewrite forge_tle_belt_planes. unfold float_div_int.
  destruct (Z.eqb_spec n 0) as [|_]; [contradiction|]. cbn [bind].
  destruct Hnp as [Hneg|Hp].
  - assert (Hr : range n = []) by (unfold range; replace (Z.to_nat n) with 0%nat by lia; reflexivity).
    rewrite Hr. cbn [mapM].
    induction (range p) as [|i is IH]; [reflexivity|].
    cbn [mapM bind]. destruct (mapM _ is) as [yss|e]; cbn [bind] in IH |- *;
      [|discriminate]. exact IH.
  - assert (Hr : range p = []) by (unfold range; replace (Z.to_nat p) with 0%nat by lia; reflexivity).
    rewrite Hr. reflexivity.
Qed.

Lemma forge_tle_belt_empty_witness :
  (-1 <> 0 /\ (-1 < 0 \/ 3 <= 0)) /\
  forge_tle_belt ucd_rest_none mean_motion_rev_day_ref (-1) 3 400 0 90 0 epoch_2025 = Ok [].
Proof.
  split; [split; [lia | left; lia]|].
  apply (forge_tle_belt_empty ucd_rest_none mean_motion_rev_day_ref (-1) 3 400 0 90 0
           epoch_2025); [lia | left; lia].
Defined.

(** For a start time of its year, at least one satellite per plane and at
    least one plane, [forge_tle_belt] returns the belt exactly when there
    are at most 100 planes (the RAAN [plane_idx * 10] stays below
    [999.99995]) and the inclination, argument of perigee, eccentricity and
    mean motion at [altitude_km * 1000] fit line 2; otherwise it raises the
    line-2 length error.  The mean anomalies [j * (360 / n)] always fit. *)
Theorem forge_tle_belt_accepts (ucd : N -> DigitClass) (mm : Q -> Q) n p alt ecc inc argp t :
  valid_start_time t -> 1 <= n -> 1 <= p ->
  let fit :=
    p <= 100 /\
    (-(9999995 # 100000) < inc < 99999995 # 100000)%Q /\
    (-(9999995 # 100000) < argp < 99999995 # 100000)%Q /\
    (0 <= ecc < 999999995 # 100000000)%Q /\
    (-(9999999995 # 1000000000) < mm (alt * 1000)%Q < 99999999995 # 1000000000)%Q in
  (fit -> exists tles, forge_tle_belt ucd mm n p alt ecc inc argp t = Ok tles) /\
  (~ fit -> forge_tle_belt ucd mm n p alt ecc inc argp t = Raise line2_error).
Proof.
  intros Hv Hn Hp fit. pose proof (line1_length_valid t Hv) as H1.
  rewrite forge_tle_belt_planes. unfold float_div_int.
  destruct (Z.eqb_spec n 0) as [|_]; [lia|]. cbn [bind].
  assert (Hrec : forall i j, In i (range p) -> In j (range n) ->
    (exists out, forge_tle_single ucd mm (belt_sat_name i j) (alt * 1000)%Q ecc inc
                   (inject_Z i * 10)%Q argp (inject_Z j * (360 / inject_Z n))%Q t = Ok out) \/
    forge_tle_single ucd mm (belt_sat_name i j) (alt * 1000)%Q ecc inc
      (inject_Z i * 10)%Q argp (inject_Z j * (360 / inject_Z n))%Q t = Raise line2_error)
    by (intros; apply forge_ok_or_line2; exact Hv).
  split.
  - intros Hfit. destruct Hfit as (Hp100 & Hinc & Hargp & Hecc & Hmm).
    match goal with |- exists _, bind (mapM ?g ?xs) _ = _ =>
      destruct (mapM_all_ok g xs) as [yss Hyss] end;
      [|rewrite Hyss; cbn [bind]; eexists; reflexivity].
    intros i Hi. apply mapM_all_ok. intros j Hj.
    apply range_In_inv in Hi. apply range_In_inv in Hj.
    eexists. apply forge_tle_single_ok; [exact H1|].
    apply belt_record_line2; [lia | lia | lia |]. repeat split; try lia; tauto.
  - intros Hnf.
    assert (Hraise : exists i, In i (range p) /\ 0 <= i /\
      String.length (tle_line2 inc (inject_Z i * 10) ecc argp
                       (inject_Z 0 * (360 / inject_Z n)) (mm (alt * 1000)%Q)) <> 68%nat).
    { destruct (Z_le_gt_dec p 100) as [Hp100|Hp100].
      - exists 0. split; [apply range_In; lia|]. split; [lia|].
        intros Hl. apply belt_record_line2 in Hl; [|lia | lia | lia].
        apply Hnf. unfold fit. tauto.
      - exists 100. split; [apply range_In; lia|]. split; [lia|].
        intros Hl. apply belt_record_line2 in Hl; [lia | lia | lia | lia]. }
    destruct Hraise as (i & Hi & Hi0 & Hl).
    erewrite mapM_raise_only; [reflexivity | |].
    + intros i' Hi'. apply mapM_ok_or_raise. intros j Hj. apply Hrec; assumption.
    + exists i. split; [exact Hi|]. apply mapM_raise_only.
      * intros j Hj. apply Hrec; assumption.
      * exists 0. split; [apply range_In; lia|].
        apply forge_line2_error; assumption.
Qed.

Lemma forge_tle_belt_accepts_witness :
  (valid_start_time epoch_2025 /\ 1 <= 2 /\ 1 <= 3) /\
  (exists tles, forge_tle_belt ucd_rest_none mean_motion_rev_day_ref 2 3 400 0 90 0 epoch_2025
                  = Ok tles) /\
  forge_tle_belt ucd_rest_none mean_motion_rev_day_ref 2 101 400 0 90 0 epoch_2025
    = Raise line2_error.
Proof.
  assert (Hv : valid_start_time epoch_2025) by (split; qdec).
  split; [split; [exact Hv | lia]|]. split.
  - apply (proj1 (forge_tle_belt_accepts ucd_rest_none mean_motion_rev_day_ref 2 3 400 0 90 0
                    epoch_2025 Hv ltac:(lia) ltac:(lia))).
    split; [lia|]. repeat split; qdec.
  - apply (proj2 (forge_tle_belt_accepts ucd_rest_none mean_motion_rev_day_ref 2 101 400 0 90 0
                    epoch_2025 Hv ltac:(lia) ltac:(lia))).
    intros (H & _). lia.
Defined.

(** The names [forge_tle_belt] gives its records tell the loop indices
    apart: for non-negative plane and satellite indices, equal names come
    from equal index pairs, so no two records of a belt share a name. *)
Theorem belt_sat_name_injective (i j i' j' : Z) :
  0 <= i -> 0 <= j -> 0 <= i' -> 0 <= j' ->
  belt_sat_name i j = belt_sat_name i' j' -> i = i' /\ j = j'.
Proof.
  intros Hi Hj Hi' Hj' H. unfold belt_sat_name in H.
  rewrite !format_int_nonneg in H by lia. rewrite !lit_app in H.
  apply app_inv_head in H.
  change (lit "_Satellite_") with (95%N :: lit "Satellite_") in H.
  destruct (lit_str_of_N (Z.to_N (i + 1))) as [Va Da].
  destruct (lit_str_of_N (Z.to_N (i' + 1))) as [Va' Da'].
  destruct (lit_str_of_N (Z.to_N (j + 1))) as [Vb _].
  destruct (lit_str_of_N (Z.to_N (j' + 1))) as [Vb' _].
  assert (Hno : forall l, Forall (fun c => 48 <= c < 58)%N l -> ~ In 95%N l).
  { intros l Hl Hin. rewrite Forall_forall in Hl. specialize (Hl _ Hin). lia. }
  cbn [app] in H.
  apply app_sep_inj in H as [Ha Hb]; [|exact (Hno _ Da) | exact (Hno _ Da')].
  apply app_inv_head in Hb.
  apply (f_equal (fun l => fold_left (fun acc c => 10 * acc + (c - 48))%N l 0%N)) in Ha, Hb.
  rewrite Va, Va' in Ha. rewrite Vb, Vb' in Hb.
  apply Z2N.inj in Ha; [|lia | lia]. apply Z2N.inj in Hb; [|lia | lia]. lia.
Qed.

Lemma belt_sat_name_injective_witness :
  (0 <= 0 /\ 0 <= 10 /\ 0 <= 0 /\ 0 <= 10) /\
  belt_sat_name 0 10 <> belt_sat_name 10 0 /\
  (belt_sat_name 0 10 = belt_sat_name 0 10 -> 0 = 0 /\ 10 = 10).
Proof.
  split; [lia|]. split.
  - intros H. apply belt_sat_name_injective in H; lia.
  - apply belt_sat_name_injective; lia.
Defined.


